(** * Order management: stock reservation, reconciliation and search projection

    A shallow embedding of [crud.py], [models.py], [schemas.py] and the order
    endpoints of [main.py], followed by the properties of the order workflows.

    - The relational database is a record of tables; the SQLAlchemy session and
      the committed data are kept apart, so that [db.commit()] and the closing
      of a session without commit are both visible.
    - The Redis lock store is the set of claimed product ids, the MeiliSearch
      index a finite map from document id to document.
    - Python [int] is [Z].  Python [float] and [datetime] are abstract: the
      development assumes no law of floating-point arithmetic. *)

From Stdlib Require Import ZArith String Lia PrimFloat Uint63.
From stdpp Require Import gmap strings list fin_maps.

Local Open Scope Z_scope.

(** ** Python values the model does not look into *)

Class PyEnv := {
  float : Type;
  float_zero : float;                    (* the literal 0.0 *)
  float_add : float → float → float;     (* x + y *)
  float_mul_int : float → Z → float;     (* x * n for an int n *)
  datetime : Type;
  timestamp : datetime → float;          (* dt.timestamp() *)
  fromtimestamp_str : float → string     (* str(datetime.fromtimestamp(x)) *)
}.

(** ** schemas.py *)

Record OrderProductBase := {
  product_id : Z;
  quantity : Z
}.

Record OrderCreate := {
  name : string;
  description : option string;
  products : list OrderProductBase
}.

(** ** Exceptions *)

(** The texts of the messages the code formats:
    "Product with ID {id} not found", "Not enough stock for product {id}",
    "Order not found". *)
Inductive Message :=
  | ProductNotFound (id : Z)
  | NotEnoughStock (id : Z)
  | OrderNotFound.

Inductive Exception :=
  | ValueError (msg : Message)
  | HTTPException (status_code : Z) (detail : Message)
  | AttributeError           (* an attribute of None is read *)
  | InvalidRequestError.     (* db.refresh of an object that has no row *)

(** ** Python dict with int keys and values

    A dict keeps its keys in insertion order; assigning to a key that is
    present replaces the value where the key stands. *)

Definition dict := list (Z * Z).

Fixpoint dict_get (d : dict) (k : Z) : option Z :=
  match d with
  | [] => None
  | (k', v) :: d' => if decide (k' = k) then Some v else dict_get d' k
  end.

Fixpoint dict_set (d : dict) (k v : Z) : dict :=
  match d with
  | [] => [(k, v)]
  | (k', v') :: d' =>
      if decide (k' = k) then (k, v) :: d' else (k', v') :: dict_set d' k v
  end.

(* d.get(k, dflt) *)
Definition dict_get_default (d : dict) (k dflt : Z) : Z :=
  default dflt (dict_get d k).

(* k in d *)
Definition dict_contains (d : dict) (k : Z) : bool :=
  bool_decide (is_Some (dict_get d k)).

(* {k: v for (k, v) in l} *)
Definition dict_of (l : list (Z * Z)) : dict :=
  foldl (λ d kv, dict_set d kv.1 kv.2) [] l.

(** ** Lock and transaction events, in program order *)

Inductive Event :=
  | EvAcquire (id : Z)           (* setnx on lock_product_<id> succeeded *)
  | EvRelease (id : Z)           (* the key lock_product_<id> was deleted *)
  | EvSelectForUpdate (id : Z)   (* the product row was read with_for_update *)
  | EvStockWrite (id : Z)        (* product.stock was assigned in the session *)
  | EvCommit.                    (* db.commit() *)

Section Model.
Context `{E : PyEnv}.

Record OrderUpdate := {
  update_base : OrderCreate;
  created_at : datetime          (* accepted by the schema, read by nothing *)
}.

(** ** models.py

    The primary key [id] of products and orders is the key of the table's map.
    The rows of [order_products] are kept in insertion order, which is the
    order of their auto-incremented ids; no operation reads that id. *)

Record Product := {
  p_name : string;
  p_description : option string;
  p_price : float;
  p_stock : Z
}.

Record Order := {
  o_name : string;
  o_description : option string;
  o_created_at : datetime;
  o_total_amount : float
}.

Record OrderProduct := {
  op_order_id : Z;
  op_product_id : Z;
  op_quantity : Z
}.

Record DB := {
  tbl_products : gmap Z Product;
  tbl_orders : gmap Z Order;
  tbl_order_products : list OrderProduct;
  next_order_id : Z              (* the auto-increment counter of orders.id *)
}.

(** ** The search index *)

Record DocProduct := {
  dp_name : string;
  dp_description : option string;
  dp_price : float;
  dp_quantity : Z
}.

Record Document := {
  d_id : Z;
  d_name : string;
  d_description : option string;
  d_created_at : float;
  d_total_amount : float;
  d_products : list DocProduct
}.

(** ** The world a request runs in *)

Record World := {
  session : DB;                  (* what the open session sees *)
  stored : DB;                   (* what has been committed *)
  index : gmap Z Document;       (* orders_index *)
  locks : gset Z;                (* product ids whose lock key is set *)
  trace : list Event
}.

Definition set_session (f : DB → DB) (w : World) : World :=
  {| session := f (session w); stored := stored w; index := index w;
     locks := locks w; trace := trace w |}.

Definition set_stored (d : DB) (w : World) : World :=
  {| session := session w; stored := d; index := index w;
     locks := locks w; trace := trace w |}.

Definition set_index (f : gmap Z Document → gmap Z Document) (w : World) : World :=
  {| session := session w; stored := stored w; index := f (index w);
     locks := locks w; trace := trace w |}.

Definition set_locks (f : gset Z → gset Z) (w : World) : World :=
  {| session := session w; stored := stored w; index := index w;
     locks := f (locks w); trace := trace w |}.

Definition log (e : Event) (w : World) : World :=
  {| session := session w; stored := stored w; index := index w;
     locks := locks w; trace := trace w ++ [e] |}.

Definition set_products (f : gmap Z Product → gmap Z Product) (d : DB) : DB :=
  {| tbl_products := f (tbl_products d); tbl_orders := tbl_orders d;
     tbl_order_products := tbl_order_products d;
     next_order_id := next_order_id d |}.

Definition set_orders (f : gmap Z Order → gmap Z Order) (d : DB) : DB :=
  {| tbl_products := tbl_products d; tbl_orders := f (tbl_orders d);
     tbl_order_products := tbl_order_products d;
     next_order_id := next_order_id d |}.

Definition set_order_products (f : list OrderProduct → list OrderProduct) (d : DB) : DB :=
  {| tbl_products := tbl_products d; tbl_orders := tbl_orders d;
     tbl_order_products := f (tbl_order_products d);
     next_order_id := next_order_id d |}.

Definition set_stock (s : Z) (p : Product) : Product :=
  {| p_name := p_name p; p_description := p_description p;
     p_price := p_price p; p_stock := s |}.

(** ** Computations: state, exceptions, and a spin-wait that cannot proceed *)

Inductive Outcome (A : Type) :=
  | Return (a : A)
  | Raise (e : Exception)
  | Blocked (id : Z).   (* spinning on the lock of product [id] *)
Global Arguments Return {A} a.
Global Arguments Raise {A} e.
Global Arguments Blocked {A} id.

Definition M (A : Type) : Type := World → Outcome A * World.

Definition ret {A} (a : A) : M A := λ w, (Return a, w).

Definition raise {A} (e : Exception) : M A := λ w, (Raise e, w).

Definition bind {A B} (m : M A) (k : A → M B) : M B := λ w,
  match m w with
  | (Return a, w') => k a w'
  | (Raise e, w') => (Raise e, w')
  | (Blocked id, w') => (Blocked id, w')
  end.

(* try: body finally: final *)
Definition try_finally {A} (body : M A) (final : M unit) : M A := λ w,
  match body w with
  | (Blocked id, w') => (Blocked id, w')
  | (r, w') =>
      match final w' with
      | (Return _, w'') => (r, w'')
      | (Raise e, w'') => (Raise e, w'')
      | (Blocked id, w'') => (Blocked id, w'')
      end
  end.

(* for x in l: acc = body(x, acc) *)
Fixpoint for_ {A S} (l : list A) (body : A → S → M S) (acc : S) : M S :=
  match l with
  | [] => ret acc
  | x :: l' => bind (body x acc) (for_ l' body)
  end.

End Model.

Declare Scope py_scope.
Delimit Scope py_scope with py.
Notation "x <- m ;; k" := (bind m (λ x, k))
  (at level 100, m at next level, right associativity) : py_scope.
Notation "m ;;; k" := (bind m (λ _, k))
  (at level 100, right associativity) : py_scope.
Local Open Scope py_scope.

Section Operations.
Context `{E : PyEnv}.

(** ** The collaborators' primitives *)

(* while not redis_client.setnx(lock_key, 1): time.sleep(0.1)
   redis_client.expire(lock_key, 5)
   The key lock_product_<id> is identified with the id.  While the key is set
   the loop spins; nothing in a request running alone clears it. *)
Definition acquire_lock (id : Z) : M unit := λ w,
  if decide (id ∈ locks w) then (Blocked id, w)
  else (Return (), log (EvAcquire id) (set_locks (λ l, {[id]} ∪ l) w)).

(* redis_client.delete(lock_key) *)
Definition release_lock (id : Z) : M unit := λ w,
  (Return (), log (EvRelease id) (set_locks (λ l, l ∖ {[id]}) w)).

(* db.query(Product).filter(Product.id == id).with_for_update().first() *)
Definition query_product_for_update (id : Z) : M (option Product) := λ w,
  (Return (tbl_products (session w) !! id), log (EvSelectForUpdate id) w).

(* db.query(Product).filter(Product.id == id).first() *)
Definition query_product (id : Z) : M (option Product) := λ w,
  (Return (tbl_products (session w) !! id), w).

(* db.query(Order).filter(Order.id == id).first() *)
Definition query_order (id : Z) : M (option Order) := λ w,
  (Return (tbl_orders (session w) !! id), w).

(* order.products: the rows of order_products that belong to the order *)
Definition lines_of (id : Z) (d : DB) : list OrderProduct :=
  filter (λ op, op_order_id op = id) (tbl_order_products d).

Definition order_products (id : Z) : M (list OrderProduct) := λ w,
  (Return (lines_of id (session w)), w).

(* product.stock = f(product.stock), for the mapped object of row [id] *)
Definition update_stock (id : Z) (f : Z → Z) : M unit := λ w,
  (Return (),
   log (EvStockWrite id)
     (set_session (set_products (alter (λ p, set_stock (f (p_stock p)) p) id)) w)).

(* db.add(Order(...)): the id is the next value of the auto-increment counter *)
Definition db_add_order (o : Order) : M Z := λ w,
  let id := next_order_id (session w) in
  (Return id,
   set_session (λ d, {| tbl_products := tbl_products d;
                        tbl_orders := <[id := o]> (tbl_orders d);
                        tbl_order_products := tbl_order_products d;
                        next_order_id := id + 1 |}) w).

(* db.add(OrderProduct(...)) *)
Definition db_add_order_product (op : OrderProduct) : M unit := λ w,
  (Return (), set_session (set_order_products (λ l, l ++ [op])) w).

(* db.query(OrderProduct).filter(OrderProduct.order_id == id).delete() *)
Definition db_delete_order_products (id : Z) : M unit := λ w,
  (Return (),
   set_session (set_order_products (filter (λ op, op_order_id op ≠ id))) w).

(* db.delete(order) *)
Definition db_delete_order (id : Z) : M unit := λ w,
  (Return (), set_session (set_orders (delete id)) w).

(* assignment to the column attributes of a mapped order *)
Definition db_set_order (id : Z) (o : Order) : M unit := λ w,
  (Return (), set_session (set_orders (<[id := o]>)) w).

(* db.commit(); the database is taken to accept the rows, see [fits] *)
Definition db_commit : M unit := λ w,
  (Return (), log EvCommit (set_stored (session w) w)).

(* db.refresh(order) *)
Definition db_refresh (id : Z) : M Order := λ w,
  match tbl_orders (session w) !! id with
  | Some o => (Return o, w)
  | None => (Raise InvalidRequestError, w)
  end.

(* orders_index.add_documents(doc): the document replaces the one of its id *)
Definition index_add_documents (doc : Document) : M unit := λ w,
  (Return (), set_index (<[d_id doc := doc]>) w).

(* orders_index.delete_document(str(id)) *)
Definition index_delete_document (id : Z) : M unit := λ w,
  (Return (), set_index (delete id) w).

(** ** crud.py *)

(* one entry of the list comprehension of index_order_in_meilisearch;
   op.product is None when the row has no product *)
Definition doc_product (op : OrderProduct) (acc : list DocProduct) : M (list DocProduct) :=
  product <- query_product (op_product_id op) ;;
  match product with
  | None => raise AttributeError
  | Some product =>
      ret (acc ++ [{| dp_name := p_name product;
                      dp_description := p_description product;
                      dp_price := p_price product;
                      dp_quantity := op_quantity op |}])
  end.

Definition index_order_in_meilisearch (id : Z) (order : Order) : M unit :=
  lines <- order_products id ;;
  products <- for_ lines doc_product [] ;;
  index_add_documents
    {| d_id := id;
       d_name := o_name order;
       d_description := o_description order;
       d_created_at := timestamp (o_created_at order);
       d_total_amount := o_total_amount order;
       d_products := products |}.

(* the body of the first loop of crud_create_order *)
Definition create_check (item : OrderProductBase) (acc : list (Z * Z) * float)
  : M (list (Z * Z) * float) :=
  acquire_lock (product_id item) ;;;
  try_finally
    (product <- query_product_for_update (product_id item) ;;
     match product with
     | None => raise (ValueError (ProductNotFound (product_id item)))
     | Some product =>
         if p_stock product <? quantity item
         then raise (ValueError (NotEnoughStock (product_id item)))
         else ret (acc.1 ++ [(product_id item, quantity item)],
                   float_add acc.2 (float_mul_int (p_price product) (quantity item)))
     end)
    (release_lock (product_id item)).

(* the body of the second loop; [product] is the mapped object of the row
   whose id is the first component *)
Definition create_apply (new_order : Z) (u : Z * Z) (_ : unit) : M unit :=
  update_stock u.1 (λ s, s - u.2) ;;;
  db_add_order_product
    {| op_order_id := new_order; op_product_id := u.1; op_quantity := u.2 |}.

(* [now] is the value of the column default datetime.now(timezone.utc);
   the result is the id of the new order *)
Definition crud_create_order (now : datetime) (order : OrderCreate) : M Z :=
  r <- for_ (products order) create_check ([], float_zero) ;;
  new_order <- db_add_order {| o_name := name order;
                               o_description := description order;
                               o_created_at := now;
                               o_total_amount := r.2 |} ;;
  db_commit ;;;
  _ <- db_refresh new_order ;;
  for_ r.1 (create_apply new_order) () ;;;
  db_commit ;;;
  o <- db_refresh new_order ;;
  index_order_in_meilisearch new_order o ;;;
  ret new_order.

(* the first loop over existing_products_map.items() *)
Definition changes_of_existing (new_products_map : dict) (stock_changes : dict)
    (kv : Z * Z) : dict :=
  let new_quantity := dict_get_default new_products_map kv.1 0 in
  if new_quantity <? kv.2 then dict_set stock_changes kv.1 (kv.2 - new_quantity)
  else if new_quantity >? kv.2 then dict_set stock_changes kv.1 (new_quantity - kv.2)
  else stock_changes.

(* the second loop, over new_products_map.items() *)
Definition changes_of_new (existing_products_map : dict) (stock_changes : dict)
    (kv : Z * Z) : dict :=
  if dict_contains existing_products_map kv.1 then stock_changes
  else dict_set stock_changes kv.1 kv.2.

Definition compute_stock_changes (existing_products_map new_products_map : dict) : dict :=
  foldl (changes_of_new existing_products_map)
    (foldl (changes_of_existing new_products_map) [] existing_products_map)
    new_products_map.

(* the validation loop over stock_changes.items() *)
Definition update_check (kv : Z * Z) (_ : unit) : M unit :=
  acquire_lock kv.1 ;;;
  try_finally
    (product <- query_product_for_update kv.1 ;;
     match product with
     | None => raise (HTTPException 404 (ProductNotFound kv.1))
     | Some product =>
         if (kv.2 >? 0) && (p_stock product <? kv.2)
         then raise (HTTPException 400 (NotEnoughStock kv.1))
         else ret ()
     end)
    (release_lock kv.1).

(* the loop that applies stock_changes *)
Definition update_apply (existing_products_map new_products_map : dict)
    (kv : Z * Z) (_ : unit) : M unit :=
  product <- query_product kv.1 ;;
  match product with
  | None => raise AttributeError
  | Some _ =>
      if dict_contains existing_products_map kv.1
         && (dict_get_default new_products_map kv.1 0
             <? dict_get_default existing_products_map kv.1 0)
      then update_stock kv.1 (λ s, s + kv.2)
      else update_stock kv.1 (λ s, s - kv.2)
  end.

(* the loop that recomputes the total and adds the new rows *)
Definition update_line (order_id : Z) (item : OrderProductBase) (total_amount : float)
  : M float :=
  product <- query_product (product_id item) ;;
  match product with
  | None => raise AttributeError
  | Some product =>
      db_add_order_product
        {| op_order_id := order_id; op_product_id := product_id item;
           op_quantity := quantity item |} ;;;
      ret (float_add total_amount (float_mul_int (p_price product) (quantity item)))
  end.

Definition crud_update_order (order_id : Z) (order_data : OrderUpdate) : M Order :=
  existing_order <- query_order order_id ;;
  match existing_order with
  | None => raise (HTTPException 404 OrderNotFound)
  | Some existing_order =>
      lines <- order_products order_id ;;
      let existing_products_map :=
        dict_of (map (λ op, (op_product_id op, op_quantity op)) lines) in
      let new_products_map :=
        dict_of (map (λ item, (product_id item, quantity item))
                   (products (update_base order_data))) in
      let stock_changes :=
        compute_stock_changes existing_products_map new_products_map in
      for_ stock_changes update_check () ;;;
      for_ stock_changes (update_apply existing_products_map new_products_map) () ;;;
      db_delete_order_products order_id ;;;
      total_amount <- for_ (products (update_base order_data))
                        (update_line order_id) float_zero ;;
      db_set_order order_id
        {| o_name := name (update_base order_data);
           o_description := description (update_base order_data);
           o_created_at := o_created_at existing_order;
           o_total_amount := total_amount |} ;;;
      db_commit ;;;
      updated_order <- db_refresh order_id ;;
      index_order_in_meilisearch order_id updated_order ;;;
      ret updated_order
  end.

(* the body of the loop of crud_delete_order *)
Definition delete_restock (order_product : OrderProduct) (_ : unit) : M unit :=
  acquire_lock (op_product_id order_product) ;;;
  try_finally
    (product <- query_product_for_update (op_product_id order_product) ;;
     match product with
     | Some _ =>
         update_stock (op_product_id order_product)
           (λ s, s + op_quantity order_product)
     | None => ret ()
     end)
    (release_lock (op_product_id order_product)).

Definition crud_delete_order (order_id : Z) : M Order :=
  order <- query_order order_id ;;
  match order with
  | None => raise (HTTPException 404 OrderNotFound)
  | Some order =>
      lines <- order_products order_id ;;
      for_ lines delete_restock () ;;;
      db_delete_order_products order_id ;;;
      db_delete_order order_id ;;;
      db_commit ;;;
      index_delete_document order_id ;;;
      ret order
  end.

(** The JSON body built by crud_get_order_by_id. *)
Record OrderJSON := {
  j_id : Z;
  j_name : string;
  j_description : option string;
  j_created_at : string;
  j_total_amount : float;
  j_products : list DocProduct
}.

(* orders_index.get_document raises when the index has no such document *)
Definition crud_get_order_by_id (order_id : Z) : M OrderJSON := λ w,
  match index w !! order_id with
  | None => (Raise (HTTPException 404 OrderNotFound), w)
  | Some order =>
      (Return {| j_id := d_id order;
                 j_name := d_name order;
                 j_description := d_description order;
                 j_created_at := fromtimestamp_str (d_created_at order);
                 j_total_amount := d_total_amount order;
                 j_products := d_products order |}, w)
  end.

(** ** main.py: the order endpoints *)

(* get_db: a new session sees the committed data; closing it drops what was
   not committed.  A request that spins on a lock never gets to close it. *)
Definition get_db {A} (handler : M A) : M A := λ w,
  match handler (set_session (λ _, stored w) w) with
  | (Blocked id, w') => (Blocked id, w')
  | (r, w') => (r, set_session (λ _, stored w') w')
  end.

(* except ValueError as e: raise HTTPException(status_code=400, detail=str(e)) *)
Definition except_ValueError {A} (m : M A) : M A := λ w,
  match m w with
  | (Raise (ValueError msg), w') => (Raise (HTTPException 400 msg), w')
  | r => r
  end.

(* except HTTPException: raise HTTPException(status_code=404, detail="Order not found") *)
Definition except_HTTPException {A} (m : M A) : M A := λ w,
  match m w with
  | (Raise (HTTPException _ _), w') => (Raise (HTTPException 404 OrderNotFound), w')
  | r => r
  end.

Definition create_order (now : datetime) (order : OrderCreate) : M Z :=
  get_db (except_ValueError (crud_create_order now order)).

Definition update_order (order_id : Z) (order : OrderUpdate) : M Order :=
  get_db (except_ValueError (crud_update_order order_id order)).

Definition delete_order (order_id : Z) : M Order :=
  get_db (except_HTTPException (crud_delete_order order_id)).

(** A request to one of the three mutating endpoints, and a server that
    handles requests one at a time. *)
Inductive Request :=
  | POST_orders (now : datetime) (order : OrderCreate)
  | PUT_orders (order_id : Z) (order : OrderUpdate)
  | DELETE_orders (order_id : Z).

Definition handle (r : Request) (w : World) : World :=
  match r with
  | POST_orders now order => (create_order now order w).2
  | PUT_orders order_id order => (update_order order_id order w).2
  | DELETE_orders order_id => (delete_order order_id w).2
  end.

Definition serve (rs : list Request) (w : World) : World :=
  foldl (λ w r, handle r w) w rs.

End Operations.

(** * Views of the loops used in the statements *)

Section Views.
Context `{E : PyEnv}.

(** What the body of the first loop of crud_create_order raises for a line. *)
Definition check_item (prods : gmap Z Product) (item : OrderProductBase)
  : option Message :=
  match prods !! product_id item with
  | None => Some (ProductNotFound (product_id item))
  | Some p =>
      if p_stock p <? quantity item then Some (NotEnoughStock (product_id item))
      else None
  end.

Fixpoint first_error (prods : gmap Z Product) (items : list OrderProductBase)
  : option Message :=
  match items with
  | [] => None
  | item :: items' =>
      match check_item prods item with
      | Some m => Some m
      | None => first_error prods items'
      end
  end.

(** The lines the loop gets to: all of them up to the first that raises. *)
Fixpoint checked (prods : gmap Z Product) (items : list OrderProductBase)
  : list OrderProductBase :=
  match items with
  | [] => []
  | item :: items' =>
      item :: match check_item prods item with
              | Some _ => []
              | None => checked prods items'
              end
  end.

(** total_amount += product.price * quantity, for a product that has a row. *)
Definition add_line (prods : gmap Z Product) (total : float) (line : Z * Z) : float :=
  match prods !! line.1 with
  | Some p => float_add total (float_mul_int (p_price p) line.2)
  | None => total
  end.

Definition item_pair (item : OrderProductBase) : Z * Z :=
  (product_id item, quantity item).

Definition line_pair (op : OrderProduct) : Z * Z :=
  (op_product_id op, op_quantity op).

Definition new_line (order_id : Z) (u : Z * Z) : OrderProduct :=
  {| op_order_id := order_id; op_product_id := u.1; op_quantity := u.2 |}.

(** The events of one locked read. *)
Definition locked_read (id : Z) : list Event :=
  [EvAcquire id; EvSelectForUpdate id; EvRelease id].

(** Adding signed amounts to the stock of the rows named, left to right. *)
Definition add_stock (d : Z) (p : Product) : Product := set_stock (p_stock p + d) p.

Definition adjust_all (deltas : list (Z * Z)) (prods : gmap Z Product)
  : gmap Z Product :=
  foldl (λ m u, alter (add_stock u.2) u.1 m) prods deltas.

(** The sum of the amounts listed for one id. *)
Definition sum_on (id : Z) (l : list (Z * Z)) : Z :=
  foldr (λ u s, if decide (u.1 = id) then u.2 + s else s) 0 l.

(** Quantity reserved for a product by the lines of the orders that exist. *)
Definition live_lines (d : DB) : list OrderProduct :=
  filter (λ op, is_Some (tbl_orders d !! op_order_id op)) (tbl_order_products d).

Definition reserved (d : DB) (id : Z) : Z :=
  sum_on id (map line_pair (live_lines d)).

(** Stock plus reserved quantity of a product, when it has a row. *)
Definition provisioned (d : DB) (id : Z) : option Z :=
  (λ p, p_stock p + reserved d id) <$> tbl_products d !! id.

(** The entry of a document for a line: the list comprehension of
    index_order_in_meilisearch, None when a product has no row. *)
Definition doc_of_line (prods : gmap Z Product) (op : OrderProduct) : option DocProduct :=
  (λ p, {| dp_name := p_name p; dp_description := p_description p;
           dp_price := p_price p; dp_quantity := op_quantity op |})
    <$> prods !! op_product_id op.

Fixpoint doc_lines (prods : gmap Z Product) (lines : list OrderProduct)
  : option (list DocProduct) :=
  match lines with
  | [] => Some []
  | op :: lines' =>
      match doc_of_line prods op, doc_lines prods lines' with
      | Some dp, Some ds => Some (dp :: ds)
      | _, _ => None
      end
  end.

Definition mk_document (id : Z) (o : Order) (ds : list DocProduct) : Document :=
  {| d_id := id; d_name := o_name o; d_description := o_description o;
     d_created_at := timestamp (o_created_at o);
     d_total_amount := o_total_amount o; d_products := ds |}.

(** The document of an order as the tables have it. *)
Definition ledger_document (d : DB) (id : Z) : option Document :=
  match tbl_orders d !! id, doc_lines (tbl_products d) (lines_of id d) with
  | Some o, Some ds => Some (mk_document id o ds)
  | _, _ => None
  end.

(** The tables crud_create_order commits when no line raises. *)
Definition neg_pair (u : Z * Z) : Z * Z := (u.1, - u.2).

Definition created_db (now : datetime) (order : OrderCreate) (d : DB) : DB :=
  let lines := map item_pair (products order) in
  {| tbl_products := adjust_all (map neg_pair lines) (tbl_products d);
     tbl_orders :=
       <[next_order_id d :=
           {| o_name := name order; o_description := description order;
              o_created_at := now;
              o_total_amount := foldl (add_line (tbl_products d)) float_zero lines |}]>
         (tbl_orders d);
     tbl_order_products :=
       tbl_order_products d ++ map (new_line (next_order_id d)) lines;
     next_order_id := next_order_id d + 1 |}.

(** The events of a crud_create_order that returns. *)
Definition create_events (items : list OrderProductBase) : list Event :=
  flat_map (λ i, locked_read (product_id i)) items
  ++ [EvCommit] ++ map (λ i, EvStockWrite (product_id i)) items ++ [EvCommit].

(** The tables crud_delete_order commits for an order that exists. *)
Definition deleted_db (id : Z) (d : DB) : DB :=
  {| tbl_products := adjust_all (map line_pair (lines_of id d)) (tbl_products d);
     tbl_orders := delete id (tbl_orders d);
     tbl_order_products := filter (λ op, op_order_id op ≠ id) (tbl_order_products d);
     next_order_id := next_order_id d |}.

(** What the body of the validation loop of crud_update_order raises. *)
Definition update_error (prods : gmap Z Product) (kv : Z * Z) : option Exception :=
  match prods !! kv.1 with
  | None => Some (HTTPException 404 (ProductNotFound kv.1))
  | Some p =>
      if (kv.2 >? 0) && (p_stock p <? kv.2)
      then Some (HTTPException 400 (NotEnoughStock kv.1))
      else None
  end.

Fixpoint first_update_error (prods : gmap Z Product) (stock_changes : dict)
  : option Exception :=
  match stock_changes with
  | [] => None
  | kv :: rest =>
      match update_error prods kv with
      | Some e => Some e
      | None => first_update_error prods rest
      end
  end.

(** The amount the applying loop adds to the stock for an entry. *)
Definition signed_change (existing_products_map new_products_map : dict)
    (kv : Z * Z) : Z * Z :=
  if dict_contains existing_products_map kv.1
     && (dict_get_default new_products_map kv.1 0
         <? dict_get_default existing_products_map kv.1 0)
  then (kv.1, kv.2) else (kv.1, - kv.2).

(** existing_products_map, new_products_map and stock_changes of
    crud_update_order. *)
Definition existing_map (id : Z) (d : DB) : dict :=
  dict_of (map line_pair (lines_of id d)).

Definition new_map (order_data : OrderUpdate) : dict :=
  dict_of (map item_pair (products (update_base order_data))).

Definition stock_changes_of (id : Z) (order_data : OrderUpdate) (d : DB) : dict :=
  compute_stock_changes (existing_map id d) (new_map order_data).

(** Every requested line names a product that has a row. *)
Definition lines_exist (prods : gmap Z Product) (items : list OrderProductBase) : bool :=
  forallb (λ i, bool_decide (is_Some (prods !! product_id i))) items.

(** The tables crud_update_order commits when nothing raises. *)
Definition updated_db (id : Z) (order_data : OrderUpdate) (existing : Order) (d : DB)
  : DB :=
  let lines := map item_pair (products (update_base order_data)) in
  let prods :=
    adjust_all (map (signed_change (existing_map id d) (new_map order_data))
                  (stock_changes_of id order_data d))
      (tbl_products d) in
  {| tbl_products := prods;
     tbl_orders :=
       <[id := {| o_name := name (update_base order_data);
                  o_description := description (update_base order_data);
                  o_created_at := o_created_at existing;
                  o_total_amount := foldl (add_line prods) float_zero lines |}]>
         (tbl_orders d);
     tbl_order_products :=
       filter (λ op, op_order_id op ≠ id) (tbl_order_products d)
       ++ map (new_line id) lines;
     next_order_id := next_order_id d |}.

(** The exception crud_update_order ends with, or the data it commits. *)
Definition update_result (id : Z) (order_data : OrderUpdate) (d : DB)
  : Exception + DB :=
  match tbl_orders d !! id with
  | None => inl (HTTPException 404 OrderNotFound)
  | Some existing =>
      match first_update_error (tbl_products d) (stock_changes_of id order_data d) with
      | Some e => inl e
      | None =>
          if lines_exist (tbl_products d) (products (update_base order_data))
          then inr (updated_db id order_data existing d)
          else inl AttributeError
      end
  end.

(** ** Conditions on the tables and on requests *)

(** What the database itself maintains: the auto-increment counter is ahead
    of every order id, and every row of order_products belongs to an order
    (the foreign key on order_id). *)
Definition db_wf (d : DB) : Prop :=
  (∀ id, is_Some (tbl_orders d !! id) → id < next_order_id d) ∧
  Forall (λ op, is_Some (tbl_orders d !! op_order_id op)) (tbl_order_products d).

(** Every line of every order names a product that has a row, and the total
    of every order is the one its lines give at the prices in the table. *)
Definition ledger_ok (d : DB) : Prop :=
  db_wf d ∧
  ∀ id o, tbl_orders d !! id = Some o →
    Forall (λ op, is_Some (tbl_products d !! op_product_id op)) (lines_of id d) ∧
    o_total_amount o =
      foldl (add_line (tbl_products d)) float_zero (map line_pair (lines_of id d)).

(** A line set: at most one line for a product, and no negative quantity. *)
Definition proper_lines (items : list OrderProductBase) : Prop :=
  NoDup (map product_id items) ∧ Forall (λ i, 0 ≤ quantity i) items.

Definition proper_request (r : Request) : Prop :=
  match r with
  | POST_orders _ order => proper_lines (products order)
  | PUT_orders _ order => proper_lines (products (update_base order))
  | DELETE_orders _ => True
  end.

(** No stock is negative, and the stored lines are line sets. *)
Definition stock_ok (d : DB) : Prop :=
  (∀ id p, tbl_products d !! id = Some p → 0 ≤ p_stock p) ∧
  (∀ id, NoDup (map op_product_id (lines_of id d))) ∧
  Forall (λ op, 0 ≤ op_quantity op) (tbl_order_products d).

(** ** What of a product no order operation may change *)

Definition product_card (p : Product) : string * option string * float :=
  (p_name p, p_description p, p_price p).

(** ** The index agrees with the tables *)

(** Under every id the index holds the document of the order as the committed
    tables have it, and nothing when the order has no row. *)
Definition projection_ok (w : World) : Prop :=
  ∀ id, index w !! id = ledger_document (stored w) id.

(** ** The events of update-order and delete-order *)

(** The events of one round of the loop of crud_delete_order: the stock is
    written, when the product has a row, before the lock is released. *)
Definition restock_events (prods : gmap Z Product) (op : OrderProduct) : list Event :=
  [EvAcquire (op_product_id op); EvSelectForUpdate (op_product_id op)]
  ++ match prods !! op_product_id op with
     | Some _ => [EvStockWrite (op_product_id op)]
     | None => []
     end
  ++ [EvRelease (op_product_id op)].


(** ** What the columns of models.py hold

    [db.commit()] is refused by the database when a value does not fit its
    column: an [Integer] outside the range of the column type, a string
    longer than its [String(n)].  The operations take every commit to be
    accepted; [fits] says of tables that the database accepts them.
    [Integer] is read as the INT of the MariaDB that database.py names, which
    every other database SQLAlchemy maps [Integer] to holds as well. *)
Definition int_fits (z : Z) : bool :=
  (-2147483648 <=? z) && (z <=? 2147483647).

Definition string_fits (n : nat) (s : string) : bool :=
  (String.length s <=? n)%nat.

Definition product_fits (id : Z) (p : Product) : bool :=
  int_fits id && string_fits 255 (p_name p)
  && from_option (string_fits 500) true (p_description p)
  && int_fits (p_stock p).

Definition order_fits (id : Z) (o : Order) : bool :=
  int_fits id && string_fits 255 (o_name o)
  && from_option (string_fits 500) true (o_description o).

Definition line_fits (op : OrderProduct) : bool :=
  int_fits (op_order_id op) && int_fits (op_product_id op)
  && int_fits (op_quantity op).

Definition fits (d : DB) : bool :=
  forallb (λ kv, product_fits kv.1 kv.2) (map_to_list (tbl_products d))
  && forallb (λ kv, order_fits kv.1 kv.2) (map_to_list (tbl_orders d))
  && forallb line_fits (tbl_order_products d).

(** The tables fit at the start and after every request of the list. *)
Fixpoint reached_fit (rs : list Request) (w : World) : bool :=
  fits (stored w)
  && match rs with
     | [] => true
     | r :: rs => reached_fit rs (handle r w)
     end.
End Views.

(** * Concrete data for the examples

    Floats and datetimes are integers here; the prices and totals of the
    examples are whole numbers. *)

Definition ExampleEnv : PyEnv :=
  {| float := Z; float_zero := 0; float_add := Z.add; float_mul_int := Z.mul;
     datetime := Z; timestamp := λ t, t;
     fromtimestamp_str := λ _, "1970-01-01 00:00:00"%string |}.

Definition product (n : string) (price stock : Z) : @Product ExampleEnv :=
  @Build_Product ExampleEnv n None price stock.

Definition line (product_id quantity : Z) : OrderProductBase :=
  {| product_id := product_id; quantity := quantity |}.

Definition world_of (d : @DB ExampleEnv) : @World ExampleEnv :=
  @Build_World ExampleEnv d d ∅ ∅ [].

(** One product, P1, with stock 5 and price 10; no order yet. *)
Definition shop : @World ExampleEnv :=
  world_of (@Build_DB ExampleEnv {[1 := product "P1" 10 5]} ∅ [] 1).

Definition order_O1 : OrderCreate :=
  {| name := "O1"; description := None; products := [line 1 2] |}.

(** Two lines for P1, each within the stock. *)
Definition order_twice : OrderCreate :=
  {| name := "twice"; description := None; products := [line 1 3; line 1 3] |}.

(** A line with quantity 0. *)
Definition order_nothing : OrderCreate :=
  {| name := "nothing"; description := None; products := [line 1 0] |}.

(** Products A, B, C with ids 1, 2, 3 and stock 10 each; order 1 holds
    {A: 3, B: 2}. *)
Definition depot : @World ExampleEnv :=
  world_of
    (@Build_DB ExampleEnv
       {[1 := product "A" 10 10; 2 := product "B" 20 10; 3 := product "C" 5 10]}
       {[1 := @Build_Order ExampleEnv "first" None 0 70]}
       [{| op_order_id := 1; op_product_id := 1; op_quantity := 3 |};
        {| op_order_id := 1; op_product_id := 2; op_quantity := 2 |}]
       2).

(** The update to {A: 1, B: 5, C: 2}. *)
Definition update_ABC : @OrderUpdate ExampleEnv :=
  @Build_OrderUpdate ExampleEnv
    {| name := "first"; description := None;
       products := [line 1 1; line 2 5; line 3 2] |} 0.

(** The update that asks for the lines order 1 of [depot] has. *)
Definition update_same : @OrderUpdate ExampleEnv :=
  @Build_OrderUpdate ExampleEnv
    {| name := "first"; description := None; products := [line 1 3; line 2 2] |} 0.

(** Product A has no stock left; order 1 holds {A: 3}. *)
Definition sold_out : @World ExampleEnv :=
  world_of
    (@Build_DB ExampleEnv
       {[1 := product "A" 10 0]}
       {[1 := @Build_Order ExampleEnv "first" None 0 30]}
       [{| op_order_id := 1; op_product_id := 1; op_quantity := 3 |}]
       2).

(** The update of order 1 to {A: 1}: two units go back. *)
Definition update_less : @OrderUpdate ExampleEnv :=
  @Build_OrderUpdate ExampleEnv
    {| name := "first"; description := None; products := [line 1 1] |} 0.

(** Order 1 holds a line for product 1 and a line for product 9, which has
    no row. *)
Definition orphaned : @World ExampleEnv :=
  world_of
    (@Build_DB ExampleEnv
       {[1 := product "A" 10 4]}
       {[1 := @Build_Order ExampleEnv "first" None 0 20]}
       [{| op_order_id := 1; op_product_id := 1; op_quantity := 2 |};
        {| op_order_id := 1; op_product_id := 9; op_quantity := 4 |}]
       2).

(** Order 1 of [shop] raised to 4 units of P1. *)
Definition update_more : @OrderUpdate ExampleEnv :=
  @Build_OrderUpdate ExampleEnv
    {| name := "O1"; description := None; products := [line 1 4] |} 0.

Definition three_requests : list (@Request ExampleEnv) :=
  [@POST_orders ExampleEnv 100 order_O1;
   @PUT_orders ExampleEnv 1 update_more;
   @DELETE_orders ExampleEnv 1].

(** A for 2 units, which are there, and B for 50, which are not. *)
Definition order_short : OrderCreate :=
  {| name := "short"; description := None; products := [line 1 2; line 2 50] |}.

(** A line with a negative quantity, then an order for the units it added. *)
Definition order_minus : OrderCreate :=
  {| name := "minus"; description := None; products := [line 1 (-5)] |}.

Definition order_ten : OrderCreate :=
  {| name := "ten"; description := None; products := [line 1 10] |}.


(** The lines order 1 of [orphaned] has, asked for again. *)
Definition update_orphan : @OrderUpdate ExampleEnv :=
  @Build_OrderUpdate ExampleEnv
    {| name := "first"; description := None; products := [line 1 2; line 9 4] |} 0.

(** Two lines for A: 1 unit, then 4 units. *)
Definition update_twice : @OrderUpdate ExampleEnv :=
  @Build_OrderUpdate ExampleEnv
    {| name := "first"; description := None; products := [line 1 1; line 1 4] |} 0.

(** Two orders are created and the first is raised to 4 units. *)
Definition two_orders : list (@Request ExampleEnv) :=
  [@POST_orders ExampleEnv 100 order_O1;
   @POST_orders ExampleEnv 101 order_nothing;
   @PUT_orders ExampleEnv 1 update_more].

(** ** Binary64 floats

    Python's float is the IEEE 754 binary64 of the machine; an int that
    multiplies a float is converted first.  The conversion here is that of
    Python for the ints below 2^63, which those of the examples are. *)
Definition float_of_int (n : Z) : PrimFloat.float :=
  if n <? 0 then PrimFloat.opp (PrimFloat.of_uint63 (Uint63.of_Z (- n)))
  else PrimFloat.of_uint63 (Uint63.of_Z n).

Definition Binary64Env : PyEnv :=
  {| float := PrimFloat.float; float_zero := PrimFloat.zero;
     float_add := PrimFloat.add;
     float_mul_int := λ x n, PrimFloat.mul x (float_of_int n);
     datetime := Z; timestamp := λ t, float_of_int t;
     fromtimestamp_str := λ _, "1970-01-01 00:00:00"%string |}.

(** Products A, B, C with ids 1, 2, 3, stock 10 each and prices 0.1, 0.2 and
    0.3, as Python reads these literals; no order yet. *)
Definition pantry : @World Binary64Env :=
  let d :=
    @Build_DB Binary64Env
      {[1 := @Build_Product Binary64Env "A" None 0x1.999999999999ap-4%float 10;
        2 := @Build_Product Binary64Env "B" None 0x1.999999999999ap-3%float 10;
        3 := @Build_Product Binary64Env "C" None 0x1.3333333333333p-2%float 10]}
      ∅ [] 1 in
  @Build_World Binary64Env d d ∅ ∅ [].

(** One unit of each of A, B, C, and the same lines from C to A. *)
Definition order_ABC : OrderCreate :=
  {| name := "abc"; description := None; products := [line 1 1; line 2 1; line 3 1] |}.

Definition update_CBA : @OrderUpdate Binary64Env :=
  @Build_OrderUpdate Binary64Env
    {| name := "abc"; description := None;
       products := [line 3 1; line 2 1; line 1 1] |} 0.

(** Order 1 has a total of 20 and no line: what a create-order leaves behind
    when the database refuses its second commit. *)
Definition half_made : @World ExampleEnv :=
  world_of
    (@Build_DB ExampleEnv
       {[1 := product "A" 10 4]}
       {[1 := @Build_Order ExampleEnv "first" None 0 20]}
       [] 2).

Definition update_none : @OrderUpdate ExampleEnv :=
  @Build_OrderUpdate ExampleEnv
    {| name := "first"; description := None; products := [] |} 0.
(** * Proofs *)

Ltac norm_world :=
  cbn;
  unfold ret, raise, set_index, log, set_stored, set_locks, set_session,
    set_orders, set_order_products, set_products;
  cbn.

Lemma lock_roundtrip (id : Z) : ({[id]} ∪ (∅ : gset Z)) ∖ {[id]} = ∅.
Proof. by rewrite union_empty_r_L, difference_diag_L. Qed.

(** ** Python dicts *)

Lemma dict_get_set d k v k' :
  dict_get (dict_set d k v) k' = if decide (k = k') then Some v else dict_get d k'.
Proof.
  induction d as [|[k0 v0] d IH]; cbn.
  - by destruct (decide (k = k')).
  - destruct (decide (k0 = k)) as [->|Hne]; cbn.
    + by destruct (decide (k = k')).
    + destruct (decide (k0 = k')) as [->|]; [|done].
      by rewrite decide_False by done.
Qed.

Lemma dict_set_keys d k v k' : k' ∈ (dict_set d k v).*1 ↔ k' = k ∨ k' ∈ d.*1.
Proof.
  induction d as [|[k0 v0] d IH]; cbn.
  - rewrite list_elem_of_singleton, elem_of_nil. tauto.
  - destruct (decide (k0 = k)) as [->|Hne]; cbn; rewrite !elem_of_cons; [tauto|].
    rewrite IH. tauto.
Qed.

Lemma dict_set_NoDup d k v : NoDup d.*1 → NoDup (dict_set d k v).*1.
Proof.
  induction d as [|[k0 v0] d IH]; cbn; intros Hd.
  - apply NoDup_singleton.
  - apply NoDup_cons in Hd as [Hin Hd].
    destruct (decide (k0 = k)) as [->|Hne]; cbn; apply NoDup_cons.
    + done.
    + split; [|auto]. rewrite dict_set_keys. intros [?|?]; done.
Qed.

Lemma dict_of_NoDup l : NoDup (dict_of l).*1.
Proof.
  unfold dict_of. generalize (NoDup_nil_2 (A:=Z)).
  change (@nil Z) with ((@nil (Z * Z)).*1). generalize (@nil (Z * Z)).
  induction l as [|[k v] l IH]; intros d Hd; cbn; [done|].
  apply IH. by apply dict_set_NoDup.
Qed.

Lemma dict_get_None d k : dict_get d k = None ↔ k ∉ d.*1.
Proof.
  induction d as [|[k0 v0] d IH]; cbn.
  - split; [intros _; apply not_elem_of_nil|done].
  - rewrite not_elem_of_cons. destruct (decide (k0 = k)) as [->|Hne].
    + split; [done|]. intros [? _]; done.
    + rewrite IH. split; [done|]. by intros [_ ?].
Qed.

Lemma dict_contains_false d k : dict_contains d k = false ↔ dict_get d k = None.
Proof.
  unfold dict_contains. rewrite bool_decide_eq_false.
  destruct (dict_get d k); split; try done.
  intros Hn. destruct Hn. by eexists.
Qed.

Lemma dict_contains_true d k : dict_contains d k = true ↔ is_Some (dict_get d k).
Proof. unfold dict_contains. by rewrite bool_decide_eq_true. Qed.

(** The stock changes the update computes, key by key. *)
Definition change_for (old new : dict) (k : Z) : option Z :=
  match dict_get old k with
  | Some oq =>
      let nq := dict_get_default new k 0 in
      if nq <? oq then Some (oq - nq)
      else if nq >? oq then Some (nq - oq) else None
  | None => dict_get new k
  end.

Lemma changes_of_existing_get new l k : ∀ sc,
  NoDup l.*1 →
  dict_get (foldl (changes_of_existing new) sc l) k =
    match dict_get l k with
    | Some oq =>
        let nq := dict_get_default new k 0 in
        if nq <? oq then Some (oq - nq)
        else if nq >? oq then Some (nq - oq) else dict_get sc k
    | None => dict_get sc k
    end.
Proof.
  induction l as [|[k0 v0] l IH]; intros sc Hl; cbn; [done|].
  apply NoDup_cons in Hl as [Hin Hl]. cbn in Hin. rewrite IH by done.
  destruct (decide (k0 = k)) as [->|Hne].
  - apply dict_get_None in Hin. rewrite Hin. unfold changes_of_existing. cbn.
    destruct (_ <? v0); [by rewrite dict_get_set, decide_True|].
    destruct (_ >? v0); [by rewrite dict_get_set, decide_True|done].
  - assert (dict_get (changes_of_existing new sc (k0, v0)) k = dict_get sc k) as ->.
    { unfold changes_of_existing. cbn.
      destruct (_ <? v0); [by rewrite dict_get_set, decide_False|].
      destruct (_ >? v0); [by rewrite dict_get_set, decide_False|done]. }
    done.
Qed.

Lemma changes_of_new_get old l k : ∀ sc,
  NoDup l.*1 →
  dict_get (foldl (changes_of_new old) sc l) k =
    match dict_get l k with
    | Some nq => if dict_contains old k then dict_get sc k else Some nq
    | None => dict_get sc k
    end.
Proof.
  induction l as [|[k0 v0] l IH]; intros sc Hl; cbn; [done|].
  apply NoDup_cons in Hl as [Hin Hl]. cbn in Hin. rewrite IH by done.
  destruct (decide (k0 = k)) as [->|Hne].
  - apply dict_get_None in Hin. rewrite Hin. unfold changes_of_new. cbn.
    destruct (dict_contains old k); [done|]. by rewrite dict_get_set, decide_True.
  - assert (dict_get (changes_of_new old sc (k0, v0)) k = dict_get sc k) as ->.
    { unfold changes_of_new. cbn.
      destruct (dict_contains old k0); [done|]. by rewrite dict_get_set, decide_False. }
    done.
Qed.

Lemma changes_of_existing_NoDup new l : ∀ sc,
  NoDup sc.*1 → NoDup (foldl (changes_of_existing new) sc l).*1.
Proof.
  induction l as [|[k0 v0] l IH]; intros sc Hsc; cbn; [done|].
  apply IH. unfold changes_of_existing. cbn.
  destruct (_ <? v0); [by apply dict_set_NoDup|].
  destruct (_ >? v0); [by apply dict_set_NoDup|done].
Qed.

Lemma changes_of_new_NoDup old l : ∀ sc,
  NoDup sc.*1 → NoDup (foldl (changes_of_new old) sc l).*1.
Proof.
  induction l as [|[k0 v0] l IH]; intros sc Hsc; cbn; [done|].
  apply IH. unfold changes_of_new. cbn.
  destruct (dict_contains old k0); [done|]. by apply dict_set_NoDup.
Qed.

Lemma compute_stock_changes_NoDup old new :
  NoDup (compute_stock_changes old new).*1.
Proof.
  unfold compute_stock_changes.
  apply changes_of_new_NoDup, changes_of_existing_NoDup. constructor.
Qed.

Lemma compute_stock_changes_get old new k :
  NoDup old.*1 → NoDup new.*1 →
  dict_get (compute_stock_changes old new) k = change_for old new k.
Proof.
  intros Ho Hn. unfold compute_stock_changes, change_for.
  rewrite changes_of_new_get, changes_of_existing_get by done. cbn.
  destruct (dict_get old k) as [oq|] eqn:Hok.
  - assert (dict_contains old k = true) as ->
      by (apply dict_contains_true; by rewrite Hok).
    by destruct (dict_get new k).
  - assert (dict_contains old k = false) as -> by by apply dict_contains_false.
    by destruct (dict_get new k).
Qed.

Section Proofs.
Context `{E : PyEnv}.

Lemma world_eta (w : World) :
  w = {| session := session w; stored := stored w; index := index w;
         locks := locks w; trace := trace w |}.
Proof. by destruct w. Qed.


Lemma create_check_run item acc w :
  locks w = ∅ →
  create_check item acc w =
    (match check_item (tbl_products (session w)) item with
     | Some m => Raise (ValueError m)
     | None => Return (acc.1 ++ [item_pair item],
                       add_line (tbl_products (session w)) acc.2 (item_pair item))
     end,
     {| session := session w; stored := stored w; index := index w;
        locks := ∅; trace := trace w ++ locked_read (product_id item) |}).
Proof.
  intros Hl. unfold create_check, bind, try_finally, acquire_lock.
  destruct (decide (product_id item ∈ locks w)) as [Hin|_]; [rewrite Hl in Hin; set_solver|].
  unfold check_item, add_line, item_pair, locked_read. cbn.
  destruct (tbl_products (session w) !! product_id item) as [p|]; cbn;
    [destruct (p_stock p <? quantity item); cbn|];
    unfold log, set_locks; cbn; rewrite Hl, lock_roundtrip, <- !app_assoc; done.
Qed.

Lemma create_loop items : ∀ acc w,
  locks w = ∅ →
  for_ items create_check acc w =
    (match first_error (tbl_products (session w)) items with
     | Some m => Raise (ValueError m)
     | None => Return (acc.1 ++ map item_pair items,
                       foldl (add_line (tbl_products (session w))) acc.2
                         (map item_pair items))
     end,
     {| session := session w; stored := stored w; index := index w;
        locks := ∅;
        trace := trace w ++ flat_map (λ i, locked_read (product_id i))
                              (checked (tbl_products (session w)) items) |}).
Proof.
  induction items as [|item items IH]; intros acc w Hl.
  - cbn. rewrite !app_nil_r, <- Hl. destruct acc. cbn.
    by rewrite <- world_eta.
  - cbn [for_ first_error checked]. unfold bind at 1.
    rewrite create_check_run by done.
    destruct (check_item (tbl_products (session w)) item) as [m|] eqn:Hc.
    + cbn. by rewrite ?app_nil_r.
    + rewrite IH by done. cbn. rewrite <- !app_assoc. done.
Qed.

Lemma doc_loop lines : ∀ acc w,
  for_ lines doc_product acc w =
    (match doc_lines (tbl_products (session w)) lines with
     | Some ds => Return (acc ++ ds)
     | None => Raise AttributeError
     end, w).
Proof.
  induction lines as [|op lines IH]; intros acc w; cbn.
  - by rewrite app_nil_r.
  - unfold bind at 1, doc_product, bind, query_product, doc_of_line. cbn.
    destruct (tbl_products (session w) !! op_product_id op) as [p|]; cbn; [|done].
    rewrite IH. destruct (doc_lines _ lines); [|done].
    by rewrite <- app_assoc.
Qed.

Lemma index_order_run id order w :
  index_order_in_meilisearch id order w =
    match doc_lines (tbl_products (session w)) (lines_of id (session w)) with
    | Some ds =>
        (Return (),
         set_index (<[id := {| d_id := id; d_name := o_name order;
                               d_description := o_description order;
                               d_created_at := timestamp (o_created_at order);
                               d_total_amount := o_total_amount order;
                               d_products := ds |}]>) w)
    | None => (Raise AttributeError, w)
    end.
Proof.
  unfold index_order_in_meilisearch, bind, order_products. rewrite doc_loop.
  by destruct (doc_lines _ _).
Qed.

Lemma create_apply_loop new_order us : ∀ w,
  for_ us (create_apply new_order) () w =
    (Return (),
     {| session :=
          set_order_products (λ l, l ++ map (new_line new_order) us)
            (set_products (adjust_all (map neg_pair us)) (session w));
        stored := stored w; index := index w; locks := locks w;
        trace := trace w ++ map (λ u, EvStockWrite u.1) us |}).
Proof.
  induction us as [|u us IH]; intros w.
  - cbn. unfold ret. f_equal.
    destruct w as [[] ? ? ? ?]; unfold set_order_products, set_products; cbn.
    by rewrite !app_nil_r.
  - cbn [for_]. unfold bind at 1. unfold create_apply, bind, update_stock,
      db_add_order_product. cbn. rewrite IH. cbn.
    unfold set_order_products, set_products. cbn.
    by rewrite <- !app_assoc.
Qed.

Lemma bind_run {A B} (m : M A) (k : A → M B) w a w' :
  m w = (Return a, w') → bind m k w = k a w'.
Proof. unfold bind. by intros ->. Qed.

Lemma db_refresh_run id o w :
  tbl_orders (session w) !! id = Some o → db_refresh id w = (Return o, w).
Proof. unfold db_refresh. by intros ->. Qed.

Lemma first_error_checked prods items :
  first_error prods items = None → checked prods items = items.
Proof.
  induction items as [|i items IH]; cbn; [done|].
  destruct (check_item prods i); [done|]. intros ?. by rewrite IH.
Qed.

Lemma crud_create_order_run now order w :
  locks w = ∅ →
  crud_create_order now order w =
    match first_error (tbl_products (session w)) (products order) with
    | Some m =>
        (Raise (ValueError m),
         {| session := session w; stored := stored w; index := index w;
            locks := ∅;
            trace := trace w ++ flat_map (λ i, locked_read (product_id i))
                       (checked (tbl_products (session w)) (products order)) |})
    | None =>
        let d := created_db now order (session w) in
        let id := next_order_id (session w) in
        match ledger_document d id with
        | Some doc =>
            (Return id,
             {| session := d; stored := d; index := <[id := doc]> (index w);
                locks := ∅;
                trace := trace w ++ create_events (products order) |})
        | None =>
            (Raise AttributeError,
             {| session := d; stored := d; index := index w; locks := ∅;
                trace := trace w ++ create_events (products order) |})
        end
    end.
Proof.
  intros Hl. unfold crud_create_order. unfold bind at 1.
  rewrite create_loop by done.
  destruct (first_error _ _) eqn:Hfe; [done|].
  rewrite (first_error_checked _ _ Hfe).
  cbv beta.
  erewrite bind_run by reflexivity.
  erewrite bind_run by reflexivity.
  erewrite bind_run by (apply db_refresh_run; cbn; apply lookup_insert_eq).
  erewrite bind_run by apply create_apply_loop.
  erewrite bind_run by reflexivity.
  erewrite bind_run by (apply db_refresh_run; cbn; apply lookup_insert_eq).
  unfold bind. rewrite index_order_run.
  unfold ledger_document, mk_document, created_db, create_events, set_order_products,
    set_products, set_stored, log, set_index, ret, adjust_all, lines_of. cbn.
  rewrite lookup_insert_eq, (map_map item_pair (λ u, EvStockWrite u.1)).
  cbn. rewrite <- !app_assoc. cbn.
  match goal with |- context [doc_lines ?a ?b] => destruct (doc_lines a b) end;
    cbn; rewrite <- ?app_assoc; done.
Qed.

Lemma alter_absent {A} (f : A → A) (m : gmap Z A) (i : Z) :
  m !! i = None → alter f i m = m.
Proof.
  intros Hi. apply map_eq. intros j. rewrite lookup_alter.
  case_decide; [subst; by rewrite Hi|done].
Qed.

Lemma delete_restock_run op w :
  locks w = ∅ →
  ∃ evs, delete_restock op () w =
    (Return (),
     {| session := set_products (alter (add_stock (op_quantity op)) (op_product_id op))
                     (session w);
        stored := stored w; index := index w; locks := ∅;
        trace := trace w ++ evs |}).
Proof.
  intros Hl. unfold delete_restock, bind, try_finally, acquire_lock.
  destruct (decide (op_product_id op ∈ locks w)) as [Hin|_];
    [rewrite Hl in Hin; set_solver|].
  cbn. destruct (tbl_products (session w) !! op_product_id op) as [p|] eqn:Hp; cbn.
  - eexists [_; _; _; _]. unfold log, set_locks, set_session; cbn.
    rewrite Hl, lock_roundtrip, <- !app_assoc. done.
  - eexists [_; _; _]. unfold log, set_locks, set_session, set_products; cbn.
    rewrite Hl, lock_roundtrip, <- !app_assoc, alter_absent by done.
    by destruct (session w).
Qed.

Lemma delete_loop lines : ∀ w,
  locks w = ∅ →
  ∃ evs, for_ lines delete_restock () w =
    (Return (),
     {| session := set_products (adjust_all (map line_pair lines)) (session w);
        stored := stored w; index := index w; locks := ∅;
        trace := trace w ++ evs |}).
Proof.
  induction lines as [|op lines IH]; intros w Hl.
  - exists []. cbn. unfold ret, set_products, adjust_all. cbn.
    rewrite app_nil_r, <- Hl. by destruct w as [[] ? ? ? ?].
  - cbn [for_]. destruct (delete_restock_run op w Hl) as [evs1 H1].
    erewrite bind_run by exact H1.
    match goal with |- context [for_ lines delete_restock () ?w1] =>
      destruct (IH w1 eq_refl) as [evs2 H2] end.
    rewrite H2. exists (evs1 ++ evs2). cbn.
    unfold set_products, adjust_all. cbn. by rewrite <- app_assoc.
Qed.

Lemma crud_delete_order_run id w :
  locks w = ∅ →
  match tbl_orders (session w) !! id with
  | None => crud_delete_order id w = (Raise (HTTPException 404 OrderNotFound), w)
  | Some o =>
      ∃ evs, crud_delete_order id w =
        (Return o,
         {| session := deleted_db id (session w);
            stored := deleted_db id (session w);
            index := delete id (index w); locks := ∅;
            trace := trace w ++ evs |})
  end.
Proof.
  intros Hl. unfold crud_delete_order.
  erewrite bind_run by reflexivity.
  destruct (tbl_orders (session w) !! id) as [o|]; [|done].
  erewrite bind_run by reflexivity.
  destruct (delete_loop (lines_of id (session w)) w Hl) as [evs Hd].
  erewrite bind_run by exact Hd.
  exists (evs ++ [EvCommit]). unfold deleted_db. norm_world.
  by rewrite <- app_assoc.
Qed.

Lemma update_check_run kv w :
  locks w = ∅ →
  update_check kv () w =
    (match update_error (tbl_products (session w)) kv with
     | Some e => Raise e
     | None => Return ()
     end,
     {| session := session w; stored := stored w; index := index w;
        locks := ∅; trace := trace w ++ locked_read kv.1 |}).
Proof.
  intros Hl. unfold update_check, bind, try_finally, acquire_lock.
  destruct (decide (kv.1 ∈ locks w)) as [Hin|_]; [rewrite Hl in Hin; set_solver|].
  unfold update_error, locked_read. cbn.
  destruct (tbl_products (session w) !! kv.1) as [p|]; cbn;
    [destruct ((kv.2 >? 0) && (p_stock p <? kv.2)); cbn|];
    unfold log, set_locks; cbn; rewrite Hl, lock_roundtrip, <- !app_assoc; done.
Qed.

Lemma update_check_loop sc : ∀ w,
  locks w = ∅ →
  ∃ evs, for_ sc update_check () w =
    (match first_update_error (tbl_products (session w)) sc with
     | Some e => Raise e
     | None => Return ()
     end,
     {| session := session w; stored := stored w; index := index w;
        locks := ∅; trace := trace w ++ evs |}).
Proof.
  induction sc as [|kv sc IH]; intros w Hl.
  - exists []. cbn. unfold ret. rewrite app_nil_r, <- Hl. by destruct w.
  - cbn [for_ first_update_error]. unfold bind at 1.
    rewrite update_check_run by done.
    destruct (update_error _ kv) as [e|]; [by eexists|].
    match goal with |- context [for_ sc update_check () ?w1] =>
      destruct (IH w1 eq_refl) as [evs H2] end.
    rewrite H2. cbn. eexists. by rewrite <- app_assoc.
Qed.

Lemma first_update_error_exist prods sc :
  first_update_error prods sc = None →
  Forall (λ kv, is_Some (prods !! kv.1)) sc.
Proof.
  induction sc as [|kv sc IH]; cbn; [constructor|].
  unfold update_error. destruct (prods !! kv.1) eqn:Hp; [|done].
  destruct (_ && _); [done|]. intros Hn. constructor; [by rewrite Hp|auto].
Qed.

Lemma update_apply_run old new kv w p :
  tbl_products (session w) !! kv.1 = Some p →
  update_apply old new kv () w =
    (Return (),
     {| session := set_products (alter (add_stock (signed_change old new kv).2) kv.1)
                     (session w);
        stored := stored w; index := index w; locks := locks w;
        trace := trace w ++ [EvStockWrite kv.1] |}).
Proof.
  intros Hp. unfold update_apply, bind, query_product, signed_change. rewrite Hp.
  by destruct (dict_contains old kv.1 && _).
Qed.

Lemma signed_change_1 old new kv : (signed_change old new kv).1 = kv.1.
Proof. unfold signed_change. by destruct (_ && _). Qed.

Lemma update_apply_loop old new sc : ∀ w,
  Forall (λ kv, is_Some (tbl_products (session w) !! kv.1)) sc →
  ∃ evs, for_ sc (update_apply old new) () w =
    (Return (),
     {| session := set_products (adjust_all (map (signed_change old new) sc))
                     (session w);
        stored := stored w; index := index w; locks := locks w;
        trace := trace w ++ evs |}).
Proof.
  induction sc as [|kv sc IH]; intros w Hex.
  - exists []. cbn. unfold ret, set_products, adjust_all. cbn.
    rewrite app_nil_r. by destruct w as [[] ? ? ? ?].
  - inversion Hex as [|? ? [p Hp] Hex']; subst.
    cbn [for_]. erewrite bind_run by (by eapply update_apply_run).
    match goal with |- context [for_ sc _ () ?w1] =>
      destruct (IH w1) as [evs H2];
        [cbn; eapply Forall_impl; [exact Hex'|];
         intros ? ?; by apply lookup_alter_is_Some|] end.
    rewrite H2. eexists. norm_world. unfold adjust_all. cbn.
    by rewrite signed_change_1, <- app_assoc.
Qed.

Lemma add_line_adjust ds prods total u :
  add_line (adjust_all ds prods) total u = add_line prods total u.
Proof.
  revert prods. unfold adjust_all.
  induction ds as [|d ds IH]; intros prods; cbn; [done|].
  rewrite IH. unfold add_line. rewrite lookup_alter.
  case_decide as Heq; [|done]. rewrite Heq. by destruct (prods !! u.1).
Qed.

Lemma update_line_run id i total w p :
  tbl_products (session w) !! product_id i = Some p →
  update_line id i total w =
    (Return (add_line (tbl_products (session w)) total (item_pair i)),
     set_session (set_order_products (λ l, l ++ [new_line id (item_pair i)])) w).
Proof.
  intros Hp. unfold update_line, bind, query_product, add_line. cbn.
  by rewrite Hp.
Qed.

Lemma update_line_loop id items : ∀ total w,
  lines_exist (tbl_products (session w)) items = true →
  for_ items (update_line id) total w =
    (Return (foldl (add_line (tbl_products (session w))) total (map item_pair items)),
     set_session (set_order_products (λ l, l ++ map (new_line id) (map item_pair items)))
       w).
Proof.
  induction items as [|i items IH]; intros total w Hex.
  - norm_world. rewrite app_nil_r. by destruct w as [[] ? ? ? ?].
  - cbn in Hex. apply andb_prop in Hex as [Hi Hex].
    apply bool_decide_eq_true in Hi as [p Hp].
    cbn [for_]. erewrite bind_run by (by eapply update_line_run).
    rewrite IH by done. norm_world. by rewrite <- app_assoc.
Qed.

Lemma update_line_loop_fail id items : ∀ total w,
  lines_exist (tbl_products (session w)) items = false →
  ∃ ses, for_ items (update_line id) total w =
    (Raise AttributeError,
     {| session := ses; stored := stored w; index := index w; locks := locks w;
        trace := trace w |}).
Proof.
  induction items as [|i items IH]; intros total w Hex; [done|].
  cbn in Hex. cbn [for_].
  destruct (tbl_products (session w) !! product_id i) as [p|] eqn:Hp.
  - rewrite bool_decide_eq_true_2 in Hex by done. cbn in Hex.
    erewrite bind_run by (by eapply update_line_run).
    match goal with |- context [for_ items _ ?t ?w1] =>
      destruct (IH t w1 Hex) as [ses H2] end.
    rewrite H2. eexists. norm_world. done.
  - exists (session w). unfold bind at 1, update_line, bind, query_product.
    rewrite Hp. norm_world. by destruct w.
Qed.

Lemma lookup_adjust_all_is_Some ds (prods : gmap Z Product) i :
  is_Some (adjust_all ds prods !! i) ↔ is_Some (prods !! i).
Proof.
  revert prods. unfold adjust_all.
  induction ds as [|d ds IH]; intros prods; cbn; [done|].
  by rewrite IH, lookup_alter_is_Some.
Qed.

Lemma lines_exist_adjust ds prods items :
  lines_exist (adjust_all ds prods) items = lines_exist prods items.
Proof.
  unfold lines_exist. induction items as [|i items IH]; cbn; [done|].
  rewrite IH. f_equal. apply bool_decide_ext, lookup_adjust_all_is_Some.
Qed.

Lemma filter_lines_other id (l : list OrderProduct) :
  filter (λ op, op_order_id op = id) (filter (λ op, op_order_id op ≠ id) l) = [].
Proof.
  induction l as [|op l IH]; [done|].
  destruct (decide (op_order_id op = id)) as [Heq|Hne].
  - by rewrite (filter_cons_False (λ op, op_order_id op ≠ id)) by (intros ?; done).
  - rewrite (filter_cons_True (λ op, op_order_id op ≠ id)) by done.
    by rewrite filter_cons_False.
Qed.

Lemma filter_new_lines id (us : list (Z * Z)) :
  filter (λ op, op_order_id op = id) (map (new_line id) us) = map (new_line id) us.
Proof.
  induction us as [|u us IH]; [done|].
  by rewrite map_cons, filter_cons_True, IH.
Qed.

Lemma doc_lines_new id prods items :
  lines_exist prods items = true →
  is_Some (doc_lines prods (map (new_line id) (map item_pair items))).
Proof.
  induction items as [|i items IH]; cbn; [done|].
  intros [Hi Hex]%andb_prop. apply bool_decide_eq_true in Hi as [p Hp].
  destruct (IH Hex) as [ds Hds]. unfold doc_of_line. cbn. by rewrite Hp, Hds.
Qed.

Lemma crud_update_order_run id upd w :
  locks w = ∅ →
  ∃ evs ses,
    match update_result id upd (session w) with
    | inl e =>
        crud_update_order id upd w =
          (Raise e,
           {| session := ses; stored := stored w; index := index w; locks := ∅;
              trace := trace w ++ evs |})
    | inr d =>
        ∃ o doc,
          tbl_orders d !! id = Some o ∧ ledger_document d id = Some doc ∧
          crud_update_order id upd w =
            (Return o,
             {| session := d; stored := d; index := <[id := doc]> (index w);
                locks := ∅; trace := trace w ++ evs |})
    end.
Proof.
  intros Hl. unfold update_result.
  destruct (tbl_orders (session w) !! id) as [existing|] eqn:Ho.
  2:{ exists [], (session w). unfold crud_update_order.
      erewrite bind_run by reflexivity. rewrite Ho.
      unfold raise. rewrite app_nil_r, <- Hl. by destruct w. }
  destruct (update_check_loop (stock_changes_of id upd (session w)) w Hl)
    as [evs1 H1].
  assert (crud_update_order id upd w =
    (for_ (stock_changes_of id upd (session w)) update_check () ;;;
     for_ (stock_changes_of id upd (session w))
       (update_apply (existing_map id (session w)) (new_map upd)) () ;;;
     db_delete_order_products id ;;;
     total_amount <- for_ (products (update_base upd)) (update_line id) float_zero ;;
     db_set_order id
       {| o_name := name (update_base upd);
          o_description := description (update_base upd);
          o_created_at := o_created_at existing;
          o_total_amount := total_amount |} ;;;
     db_commit ;;;
     updated_order <- db_refresh id ;;
     index_order_in_meilisearch id updated_order ;;;
     ret updated_order) w) as ->.
  { unfold crud_update_order. erewrite bind_run by reflexivity. rewrite Ho.
    erewrite bind_run by reflexivity. done. }
  destruct (first_update_error _ _) eqn:Hfe.
  { unfold bind at 1. rewrite H1. by eexists _, _. }
  apply first_update_error_exist in Hfe.
  destruct (update_apply_loop (existing_map id (session w)) (new_map upd) _
              {| session := session w; stored := stored w; index := index w;
                 locks := ∅; trace := trace w ++ evs1 |} Hfe) as [evs2 H2].
  destruct (lines_exist _ _) eqn:Hex.
  all: unfold bind at 1; rewrite H1.
  all: cbn in H2; cbv beta; unfold bind at 1; rewrite H2.
  all: erewrite bind_run by reflexivity.
  - erewrite bind_run
      by (apply update_line_loop; norm_world; by rewrite lines_exist_adjust).
    erewrite bind_run by reflexivity.
    erewrite bind_run by reflexivity.
    erewrite bind_run by (apply db_refresh_run; norm_world; apply lookup_insert_eq).
    unfold bind. rewrite index_order_run. norm_world.
    unfold lines_of. cbn. rewrite filter_app, filter_lines_other, filter_new_lines.
    cbn.
    destruct (doc_lines_new id
                (adjust_all (map (signed_change (existing_map id (session w))
                                    (new_map upd))
                               (stock_changes_of id upd (session w)))
                   (tbl_products (session w)))
                (products (update_base upd))) as [ds Hds];
      [by rewrite lines_exist_adjust|].
    rewrite Hds. exists (evs1 ++ evs2 ++ [EvCommit]), (session w).
    eexists _, _. split; [|split].
    + unfold updated_db. cbn. apply lookup_insert_eq.
    + unfold ledger_document, updated_db, lines_of. cbn.
      rewrite lookup_insert_eq, filter_app, filter_lines_other, filter_new_lines.
      cbn. rewrite Hds. done.
    + unfold updated_db, mk_document. cbn. by rewrite <- !app_assoc.
  - match goal with |- context [bind (for_ _ (update_line id) ?t) _ ?w1] =>
      destruct (update_line_loop_fail id (products (update_base upd)) t w1)
        as [ses H3]; [norm_world; by rewrite lines_exist_adjust|] end.
    unfold bind at 1. rewrite H3. eexists _, _. norm_world.
    by rewrite <- app_assoc.
Qed.

Lemma add_stock_add a b (p : Product) : add_stock a (add_stock b p) = add_stock (b + a) p.
Proof. destruct p. unfold add_stock, set_stock. cbn. by rewrite Z.add_assoc. Qed.

Lemma add_stock_0 (p : Product) : add_stock 0 p = p.
Proof. destruct p. unfold add_stock, set_stock. cbn. by rewrite Z.add_0_r. Qed.

Lemma p_stock_add_stock a (p : Product) : p_stock (add_stock a p) = p_stock p + a.
Proof. done. Qed.

Lemma sum_on_cons i (u : Z * Z) l :
  sum_on i (u :: l) = if decide (u.1 = i) then u.2 + sum_on i l else sum_on i l.
Proof. done. Qed.

Lemma lookup_adjust_all ds : ∀ (prods : gmap Z Product) i,
  adjust_all ds prods !! i = add_stock (sum_on i ds) <$> prods !! i.
Proof.
  unfold adjust_all. induction ds as [|d ds IH]; intros prods i.
  - cbn. destruct (prods !! i) as [p|]; cbn; [|done]. by rewrite add_stock_0.
  - cbn [foldl]. rewrite IH, lookup_alter, sum_on_cons.
    destruct (decide (d.1 = i)) as [Heq|Hne]; [|done].
    rewrite Heq. destruct (prods !! i); cbn; [|done]. by rewrite add_stock_add.
Qed.

Lemma sum_on_app i l1 l2 : sum_on i (l1 ++ l2) = sum_on i l1 + sum_on i l2.
Proof.
  unfold sum_on. induction l1 as [|u l1 IH]; cbn; [done|].
  rewrite IH. destruct (decide (u.1 = i)); lia.
Qed.

Lemma sum_on_neg i l : sum_on i (map neg_pair l) = - sum_on i l.
Proof.
  unfold sum_on. induction l as [|u l IH]; cbn; [done|].
  rewrite IH. destruct (decide (u.1 = i)); lia.
Qed.

Lemma sum_on_absent i l : i ∉ l.*1 → sum_on i l = 0.
Proof.
  unfold sum_on. induction l as [|u l IH]; cbn; [done|].
  rewrite not_elem_of_cons. intros [Hne Hin].
  rewrite decide_False by done. auto.
Qed.

Lemma sum_on_dict i d :
  NoDup d.*1 → sum_on i d = dict_get_default d i 0.
Proof.
  unfold dict_get_default. induction d as [|[k v] d IH]; cbn; [done|].
  intros [Hin Hd]%NoDup_cons. destruct (decide (k = i)) as [->|Hne].
  - cbn. fold (sum_on i d). rewrite sum_on_absent by done. lia.
  - by apply IH.
Qed.

Lemma sum_on_signed old new i d :
  NoDup d.*1 →
  sum_on i (map (signed_change old new) d) =
    match dict_get d i with
    | Some c => (signed_change old new (i, c)).2
    | None => 0
    end.
Proof.
  induction d as [|[k v] d IH]; cbn; [done|].
  intros [Hin Hd]%NoDup_cons. rewrite signed_change_1. cbn.
  destruct (decide (k = i)) as [->|Hne]; [|by apply IH].
  fold (sum_on i (map (signed_change old new) d)).
  rewrite sum_on_absent; [lia|].
  rewrite <- list_fmap_compose. intros Hm. apply Hin.
  apply list_elem_of_fmap in Hm as [u [-> Hu]]. cbn.
  rewrite signed_change_1. apply list_elem_of_fmap. by exists u.
Qed.

(** The net effect of the applying loop on the stock of one product. *)
Lemma update_delta old new i :
  NoDup old.*1 → NoDup new.*1 →
  sum_on i (map (signed_change old new) (compute_stock_changes old new)) =
    dict_get_default old i 0 - dict_get_default new i 0.
Proof.
  intros Ho Hn. rewrite sum_on_signed by apply compute_stock_changes_NoDup.
  rewrite compute_stock_changes_get by done.
  unfold change_for, signed_change, dict_get_default. cbn.
  destruct (dict_get old i) as [oq|] eqn:Hoi; cbn.
  - assert (dict_contains old i = true) as ->
      by (apply dict_contains_true; by rewrite Hoi).
    rewrite !Z.gtb_ltb.
    destruct (dict_get new i) as [nq|]; cbn.
    + destruct (Z.ltb_spec nq oq); cbn; [lia|].
      destruct (Z.ltb_spec oq nq); cbn; lia.
    + destruct (Z.ltb_spec 0 oq); cbn; [lia|].
      destruct (Z.ltb_spec oq 0); cbn; lia.
  - assert (dict_contains old i = false) as -> by by apply dict_contains_false.
    destruct (dict_get new i) as [nq|]; cbn; lia.
Qed.

(** ** What a returned call tells *)

Lemma crud_create_order_Return now order w id w' :
  locks w = ∅ →
  crud_create_order now order w = (Return id, w') →
  first_error (tbl_products (session w)) (products order) = None ∧
  id = next_order_id (session w) ∧
  ∃ doc, ledger_document (created_db now order (session w)) id = Some doc ∧
    w' = {| session := created_db now order (session w);
            stored := created_db now order (session w);
            index := <[id := doc]> (index w); locks := ∅;
            trace := trace w ++ create_events (products order) |}.
Proof.
  intros Hl Hrun. rewrite crud_create_order_run in Hrun by done.
  destruct (first_error _ _); [done|]. cbv zeta in Hrun.
  destruct (ledger_document _ _) as [doc|] eqn:Hdoc; [|done].
  injection Hrun as <- <-. split; [done|]. split; [done|]. by exists doc.
Qed.

Lemma crud_update_order_Return id upd w o w' :
  locks w = ∅ →
  crud_update_order id upd w = (Return o, w') →
  ∃ d doc evs,
    update_result id upd (session w) = inr d ∧
    tbl_orders d !! id = Some o ∧ ledger_document d id = Some doc ∧
    w' = {| session := d; stored := d; index := <[id := doc]> (index w);
            locks := ∅; trace := trace w ++ evs |}.
Proof.
  intros Hl Hrun. destruct (crud_update_order_run id upd w Hl) as (evs & ses & Hr).
  destruct (update_result id upd (session w)) as [e|d].
  - rewrite Hr in Hrun. done.
  - destruct Hr as (o' & doc & Ho & Hdoc & Hr). rewrite Hr in Hrun.
    injection Hrun as <- <-. by exists d, doc, evs.
Qed.

Lemma crud_delete_order_Return id w o w' :
  locks w = ∅ →
  crud_delete_order id w = (Return o, w') →
  tbl_orders (session w) !! id = Some o ∧
  ∃ evs, w' = {| session := deleted_db id (session w);
                 stored := deleted_db id (session w);
                 index := delete id (index w); locks := ∅;
                 trace := trace w ++ evs |}.
Proof.
  intros Hl Hrun. pose proof (crud_delete_order_run id w Hl) as Hr.
  destruct (tbl_orders (session w) !! id) as [o'|].
  - destruct Hr as [evs Hr]. rewrite Hr in Hrun. injection Hrun as <- <-.
    split; [done|]. by exists evs.
  - rewrite Hr in Hrun. done.
Qed.

Lemma first_error_Some prods items m :
  first_error prods items = Some m →
  ∃ item, item ∈ items ∧ check_item prods item = Some m.
Proof.
  induction items as [|i items IH]; cbn; [done|].
  destruct (check_item prods i) as [m'|] eqn:Hc.
  - intros [= ->]. exists i. split; [left|done].
  - intros Hf. destruct (IH Hf) as (item & Hin & Hitem).
    exists item. split; [by right|done].
Qed.

Lemma first_error_None prods items :
  first_error prods items = None →
  Forall (λ item, check_item prods item = None) items.
Proof.
  induction items as [|i items IH]; cbn; [constructor|].
  destruct (check_item prods i) eqn:Hc; [done|]. intros Hf. constructor; auto.
Qed.

Lemma check_item_Some prods item m :
  check_item prods item = Some m →
  (m = ProductNotFound (product_id item) ∧ prods !! product_id item = None) ∨
  (m = NotEnoughStock (product_id item) ∧
   ∃ p, prods !! product_id item = Some p ∧ p_stock p < quantity item).
Proof.
  unfold check_item. destruct (prods !! product_id item) as [p|].
  - destruct (Z.ltb_spec (p_stock p) (quantity item)); [|done].
    intros [= <-]. right. split; [done|]. by exists p.
  - intros [= <-]. by left.
Qed.

Lemma check_item_None prods item :
  check_item prods item = None →
  ∃ p, prods !! product_id item = Some p ∧ quantity item ≤ p_stock p.
Proof.
  unfold check_item. destruct (prods !! product_id item) as [p|]; [|done].
  destruct (Z.ltb_spec (p_stock p) (quantity item)); [done|].
  intros _. by exists p.
Qed.


(** C4 fails on the code.  In a create-order that returns, the lock of every
    requested product is released right after the read of its row; the
    first commit and every assignment to a stock come after the last
    release, so no lock is held when a stock is decremented or committed. *)
Theorem create_order_releases_before_write now order w id w' :
  locks w = ∅ →
  crud_create_order now order w = (Return id, w') →
  trace w' =
    trace w
    ++ flat_map (λ i, [EvAcquire (product_id i); EvSelectForUpdate (product_id i);
                       EvRelease (product_id i)]) (products order)
    ++ [EvCommit]
    ++ map (λ i, EvStockWrite (product_id i)) (products order)
    ++ [EvCommit].
Proof.
  intros Hl Hrun.
  destruct (crud_create_order_Return _ _ _ _ _ Hl Hrun) as (_ & _ & doc & _ & ->).
  done.
Qed.

(** C6. After a create-order or an update-order that returns, the index holds
    under the order's id the document of the committed order: its name,
    description, total and creation time (as a timestamp), and for each of its
    lines the name, description and price of the product and the quantity of
    the line; looking the id up returns these values.  After a delete-order
    that returns, looking the id up raises 404 "Order not found". *)
Theorem projection_convergence :
  (∀ now order w id w',
     locks w = ∅ →
     crud_create_order now order w = (Return id, w') →
     ∃ o ds,
       tbl_orders (stored w') !! id = Some o ∧
       doc_lines (tbl_products (stored w')) (lines_of id (stored w')) = Some ds ∧
       index w' !! id =
         Some {| d_id := id; d_name := o_name o; d_description := o_description o;
                 d_created_at := timestamp (o_created_at o);
                 d_total_amount := o_total_amount o; d_products := ds |} ∧
       crud_get_order_by_id id w' =
         (Return {| j_id := id; j_name := o_name o;
                    j_description := o_description o;
                    j_created_at := fromtimestamp_str (timestamp (o_created_at o));
                    j_total_amount := o_total_amount o; j_products := ds |}, w')) ∧
  (∀ id order_data w o w',
     locks w = ∅ →
     crud_update_order id order_data w = (Return o, w') →
     ∃ ds,
       tbl_orders (stored w') !! id = Some o ∧
       doc_lines (tbl_products (stored w')) (lines_of id (stored w')) = Some ds ∧
       index w' !! id =
         Some {| d_id := id; d_name := o_name o; d_description := o_description o;
                 d_created_at := timestamp (o_created_at o);
                 d_total_amount := o_total_amount o; d_products := ds |} ∧
       crud_get_order_by_id id w' =
         (Return {| j_id := id; j_name := o_name o;
                    j_description := o_description o;
                    j_created_at := fromtimestamp_str (timestamp (o_created_at o));
                    j_total_amount := o_total_amount o; j_products := ds |}, w')) ∧
  (∀ id w o w',
     locks w = ∅ →
     crud_delete_order id w = (Return o, w') →
     crud_get_order_by_id id w' = (Raise (HTTPException 404 OrderNotFound), w')).
Proof.
  split; [|split].
  - intros now order w id w' Hl Hrun.
    destruct (crud_create_order_Return _ _ _ _ _ Hl Hrun)
      as (_ & _ & doc & Hdoc & ->). cbn [stored index].
    unfold ledger_document in Hdoc.
    destruct (tbl_orders _ !! id) as [o|] eqn:Ho; [|done].
    destruct (doc_lines _ _) as [ds|] eqn:Hds; [|done].
    injection Hdoc as <-. exists o, ds.
    unfold crud_get_order_by_id. cbn [index]. by rewrite lookup_insert_eq.
  - intros id upd w o w' Hl Hrun.
    destruct (crud_update_order_Return _ _ _ _ _ Hl Hrun)
      as (d & doc & evs & _ & Ho & Hdoc & ->). cbn [stored index].
    unfold ledger_document in Hdoc. rewrite Ho in Hdoc.
    destruct (doc_lines _ _) as [ds|] eqn:Hds; [|done].
    injection Hdoc as <-. exists ds.
    unfold crud_get_order_by_id. cbn [index]. by rewrite lookup_insert_eq.
  - intros id w o w' Hl Hrun.
    destruct (crud_delete_order_Return _ _ _ _ Hl Hrun) as (_ & evs & ->).
    unfold crud_get_order_by_id. cbn. by rewrite lookup_delete_eq.
Qed.

(** C9, as the code has it.  The lines create-order and update-order store are
    the requested lines, one row for each, with the product id and the
    quantity of the request; so a stored quantity is above zero exactly when
    the requested one is.  No quantity is rejected for being zero or below. *)
Theorem stored_lines_are_requested_lines :
  (∀ now order w id w',
     locks w = ∅ →
     crud_create_order now order w = (Return id, w') →
     tbl_order_products (stored w') =
       tbl_order_products (session w)
       ++ map (λ i, {| op_order_id := id; op_product_id := product_id i;
                       op_quantity := quantity i |}) (products order)) ∧
  (∀ id order_data w o w',
     locks w = ∅ →
     crud_update_order id order_data w = (Return o, w') →
     tbl_order_products (stored w') =
       filter (λ op, op_order_id op ≠ id) (tbl_order_products (session w))
       ++ map (λ i, {| op_order_id := id; op_product_id := product_id i;
                       op_quantity := quantity i |})
            (products (update_base order_data))).
Proof.
  split.
  - intros now order w id w' Hl Hrun.
    destruct (crud_create_order_Return _ _ _ _ _ Hl Hrun)
      as (_ & -> & doc & _ & ->). cbn. by rewrite map_map.
  - intros id upd w o w' Hl Hrun.
    destruct (crud_update_order_Return _ _ _ _ _ Hl Hrun)
      as (d & doc & evs & Hres & _ & _ & ->). cbn.
    unfold update_result in Hres.
    destruct (tbl_orders (session w) !! id); [|done].
    destruct (first_update_error _ _); [done|].
    destruct (lines_exist _ _); [|done].
    injection Hres as <-. cbn. by rewrite map_map.
Qed.

(** C10. delete-order on an order that exists returns.  Every product that
    has a row gets back the quantities of the order's lines that name it; a
    line whose product has no row changes nothing, and the product still has
    no row.  The order, its lines and its document are gone. *)
Theorem delete_order_skips_missing_products id w o :
  locks w = ∅ →
  tbl_orders (session w) !! id = Some o →
  ∃ w',
    crud_delete_order id w = (Return o, w') ∧
    (∀ pid,
       tbl_products (stored w') !! pid =
         (λ p, set_stock (p_stock p
                          + sum_on pid (map line_pair (lines_of id (session w)))) p)
           <$> tbl_products (session w) !! pid) ∧
    tbl_orders (stored w') !! id = None ∧
    lines_of id (stored w') = [] ∧
    index w' !! id = None.
Proof.
  intros Hl Ho. pose proof (crud_delete_order_run id w Hl) as Hr.
  rewrite Ho in Hr. destruct Hr as [evs Hr]. eexists. split; [exact Hr|].
  cbn. split; [|split; [|split]].
  - intros pid. apply lookup_adjust_all.
  - apply lookup_delete_eq.
  - apply filter_lines_other.
  - apply lookup_delete_eq.
Qed.

(** ** Fresh ids *)

Lemma db_wf_next_absent d : db_wf d → tbl_orders d !! next_order_id d = None.
Proof.
  intros [Hlt _]. destruct (tbl_orders d !! next_order_id d) eqn:Ho; [|done].
  specialize (Hlt (next_order_id d)). rewrite Ho in Hlt.
  assert (next_order_id d < next_order_id d) by (apply Hlt; by eexists). lia.
Qed.

Lemma db_wf_rows_other d :
  db_wf d → Forall (λ op, op_order_id op ≠ next_order_id d) (tbl_order_products d).
Proof.
  intros Hwf. pose proof (db_wf_next_absent d Hwf) as Hn. destruct Hwf as [_ Hfk].
  eapply Forall_impl; [exact Hfk|]. cbn. intros op [o Ho] Heq.
  rewrite Heq in Ho. congruence.
Qed.

Lemma filter_all_false {A} (P : A → Prop) `{∀ x, Decision (P x)} (l : list A) :
  Forall (λ x, ¬ P x) l → filter P l = [].
Proof.
  induction 1 as [|x l Hx _ IH]; [done|]. by rewrite filter_cons_False.
Qed.

Lemma filter_all_true {A} (P : A → Prop) `{∀ x, Decision (P x)} (l : list A) :
  Forall P l → filter P l = l.
Proof.
  induction 1 as [|x l Hx _ IH]; [done|]. by rewrite filter_cons_True, IH.
Qed.

Lemma filter_new_lines_other id (us : list (Z * Z)) :
  filter (λ op, op_order_id op ≠ id) (map (new_line id) us) = [].
Proof.
  apply filter_all_false, Forall_forall. intros op Hop.
  apply list_elem_of_fmap in Hop as (u & -> & _). cbn. by intros ?.
Qed.

Lemma line_pair_new_line id (us : list (Z * Z)) :
  map line_pair (map (new_line id) us) = us.
Proof.
  rewrite map_map. induction us as [|[k v] us IH]; [done|]. cbn. by rewrite IH.
Qed.

Lemma lines_of_created now order d :
  db_wf d →
  lines_of (next_order_id d) (created_db now order d) =
    map (new_line (next_order_id d)) (map item_pair (products order)).
Proof.
  intros Hwf. unfold lines_of, created_db. cbn.
  rewrite filter_app, filter_new_lines, filter_all_false; [done|].
  eapply Forall_impl; [apply db_wf_rows_other, Hwf|]. cbn. tauto.
Qed.

(** C7. Deleting an order right after it was created returns, and puts the
    tables back: every product has the stock it had before the creation, and
    the order, its lines and its document are gone. *)
Theorem delete_reverses_create now order w id w1 :
  locks w = ∅ →
  db_wf (session w) →
  crud_create_order now order w = (Return id, w1) →
  ∃ o w2,
    crud_delete_order id w1 = (Return o, w2) ∧
    tbl_products (stored w2) = tbl_products (session w) ∧
    tbl_orders (stored w2) = tbl_orders (session w) ∧
    tbl_order_products (stored w2) = tbl_order_products (session w) ∧
    index w2 !! id = None.
Proof.
  intros Hl Hwf Hrun.
  destruct (crud_create_order_Return _ _ _ _ _ Hl Hrun)
    as (_ & -> & doc & _ & ->).
  match goal with |- context [crud_delete_order ?i ?w1] =>
    pose proof (crud_delete_order_run i w1 eq_refl) as Hr end.
  cbn [session] in Hr. unfold created_db at 1 in Hr. cbn [tbl_orders] in Hr.
  rewrite lookup_insert_eq in Hr. destruct Hr as [evs Hr].
  eexists _, _. split; [exact Hr|]. cbn [stored index].
  split; [|split; [|split]].
  - unfold deleted_db. cbn [tbl_products]. rewrite lines_of_created by done.
    rewrite line_pair_new_line. unfold created_db. cbn [tbl_products].
    apply map_eq. intros i. rewrite !lookup_adjust_all, sum_on_neg.
    destruct (tbl_products (session w) !! i) as [p|]; cbn; [|done].
    rewrite add_stock_add, Z.add_opp_diag_l. by rewrite add_stock_0.
  - cbn. apply delete_insert_id, db_wf_next_absent, Hwf.
  - cbn. rewrite filter_app, filter_new_lines_other, app_nil_r.
    apply filter_all_true, db_wf_rows_other, Hwf.
  - apply lookup_delete_eq.
Qed.

(** C2. In an update-order that returns, the stock of every product moves by
    the difference between the quantity the new lines give it and the
    quantity the old lines gave it, absent meaning 0: when the difference is
    above zero it is taken from the stock, when it is below zero its
    magnitude is put back, and otherwise the stock stays. *)
Theorem update_order_stock_delta id order_data w o w' pid p :
  locks w = ∅ →
  crud_update_order id order_data w = (Return o, w') →
  tbl_products (session w) !! pid = Some p →
  let old_quantity := dict_get_default (existing_map id (session w)) pid 0 in
  let new_quantity := dict_get_default (new_map order_data) pid 0 in
  ∃ p',
    tbl_products (stored w') !! pid = Some p' ∧
    (0 < new_quantity - old_quantity →
     p_stock p' = p_stock p - (new_quantity - old_quantity)) ∧
    (new_quantity - old_quantity < 0 →
     p_stock p' = p_stock p + Z.abs (new_quantity - old_quantity)) ∧
    (new_quantity = old_quantity → p_stock p' = p_stock p).
Proof.
  intros Hl Hrun Hp old_quantity new_quantity.
  destruct (crud_update_order_Return _ _ _ _ _ Hl Hrun)
    as (d & doc & evs & Hres & _ & _ & ->). cbn [stored].
  unfold update_result in Hres.
  destruct (tbl_orders (session w) !! id); [|done].
  destruct (first_update_error _ _); [done|].
  destruct (lines_exist _ _); [|done].
  injection Hres as <-. unfold updated_db. cbn [tbl_products].
  rewrite lookup_adjust_all, Hp. unfold stock_changes_of.
  rewrite update_delta by apply dict_of_NoDup.
  fold old_quantity new_quantity. eexists. split; [done|].
  rewrite p_stock_add_stock. lia.
Qed.

(** ** An update that asks for the lines the order has *)

Lemma dict_get_elem_of d kv :
  NoDup d.*1 → kv ∈ d → dict_get d kv.1 = Some kv.2.
Proof.
  induction d as [|[k v] d IH]; cbn; [by intros _ ?%elem_of_nil|].
  intros [Hin Hd]%NoDup_cons [->|Hkv]%elem_of_cons.
  - cbn. by rewrite decide_True.
  - destruct (decide (k = kv.1)) as [->|Hne]; [|by apply IH].
    exfalso. apply Hin. apply list_elem_of_fmap. by exists kv.
Qed.

Lemma changes_of_existing_same new l : ∀ sc,
  Forall (λ kv, dict_get new kv.1 = Some kv.2) l →
  foldl (changes_of_existing new) sc l = sc.
Proof.
  induction l as [|kv l IH]; intros sc Hl; [done|].
  apply Forall_cons in Hl as [Hkv Hl]. cbn [foldl]. rewrite IH by done.
  unfold changes_of_existing, dict_get_default. rewrite Hkv. cbn.
  rewrite Z.ltb_irrefl, Z.gtb_ltb, Z.ltb_irrefl. done.
Qed.

Lemma changes_of_new_same old l : ∀ sc,
  Forall (λ kv, dict_get old kv.1 = Some kv.2) l →
  foldl (changes_of_new old) sc l = sc.
Proof.
  induction l as [|kv l IH]; intros sc Hl; [done|].
  apply Forall_cons in Hl as [Hkv Hl]. cbn [foldl]. rewrite IH by done.
  unfold changes_of_new.
  assert (dict_contains old kv.1 = true) as ->
    by (apply dict_contains_true; by rewrite Hkv).
  done.
Qed.

Lemma compute_stock_changes_same m :
  NoDup m.*1 → compute_stock_changes m m = [].
Proof.
  intros Hm. unfold compute_stock_changes.
  assert (Forall (λ kv, dict_get m kv.1 = Some kv.2) m) as Hall
    by (apply Forall_forall; intros kv ?; by apply dict_get_elem_of).
  by rewrite changes_of_existing_same, changes_of_new_same.
Qed.

Lemma lines_exist_pairs prods items :
  lines_exist prods items =
    forallb (λ u, bool_decide (is_Some (prods !! u.1))) (map item_pair items).
Proof.
  unfold lines_exist. induction items as [|i items IH]; [done|].
  cbn. by rewrite IH.
Qed.

Lemma lines_exist_lines (prods : gmap Z Product) (lines : list OrderProduct) :
  Forall (λ op, is_Some (prods !! op_product_id op)) lines →
  forallb (λ u, bool_decide (is_Some (prods !! u.1))) (map line_pair lines) = true.
Proof.
  induction 1 as [|op lines Hop _ IH]; [done|]. cbn.
  by rewrite IH, bool_decide_eq_true_2.
Qed.

(** ** Line sets as dicts *)

Lemma dict_set_fresh d k v : k ∉ d.*1 → dict_set d k v = d ++ [(k, v)].
Proof.
  induction d as [|[k0 v0] d IH]; cbn; [done|].
  rewrite not_elem_of_cons. intros [Hne Hin].
  rewrite decide_False by done. by rewrite IH.
Qed.

Lemma dict_of_distinct l : NoDup l.*1 → dict_of l = l.
Proof.
  unfold dict_of. change l with ([] ++ l) at 1 3.
  generalize (@nil (Z * Z)) as acc. induction l as [|[k v] l IH]; intros acc Hnd.
  - by rewrite app_nil_r.
  - rewrite fmap_app in Hnd. apply NoDup_app in Hnd as (Hacc & Hdis & Hl).
    cbn in Hl. apply NoDup_cons in Hl as [Hk Hl]. cbn [foldl fst snd].
    rewrite dict_set_fresh.
    + rewrite (IH (acc ++ [(k, v)])); [by rewrite <- app_assoc|].
      rewrite <- app_assoc. cbn. rewrite fmap_app. apply NoDup_app.
      split; [done|]. split; [exact Hdis|]. cbn. by apply NoDup_cons.
    + intros Hin. apply (Hdis k Hin). cbn. left.
Qed.

Lemma dict_get_Some_elem_of d k v : dict_get d k = Some v → (k, v) ∈ d.
Proof.
  induction d as [|[k0 v0] d IH]; cbn; [done|].
  destruct (decide (k0 = k)) as [->|Hne].
  - intros [= ->]. left.
  - intros Hg. right. auto.
Qed.

Lemma sum_on_nonneg i l : Forall (λ u, 0 ≤ u.2) l → 0 ≤ sum_on i l.
Proof.
  induction 1 as [|u l Hu _ IH]; [done|]. rewrite sum_on_cons.
  destruct (decide (u.1 = i)); lia.
Qed.

Lemma sum_on_filter_split {A} (f : A → Z * Z) (P : A → Prop)
    `{∀ x, Decision (P x)} i (l : list A) :
  sum_on i (map f l) =
    sum_on i (map f (filter P l)) + sum_on i (map f (filter (λ x, ¬ P x) l)).
Proof.
  induction l as [|x l IH]; [done|].
  destruct (decide (P x)) as [HP|HP].
  - rewrite (filter_cons_True P), (filter_cons_False (λ x, ¬ P x)) by tauto.
    rewrite !map_cons, !sum_on_cons, IH. destruct (decide ((f x).1 = i)); lia.
  - rewrite (filter_cons_False P), (filter_cons_True (λ x, ¬ P x)) by tauto.
    rewrite !map_cons, !sum_on_cons, IH. destruct (decide ((f x).1 = i)); lia.
Qed.

Lemma item_pair_keys (items : list OrderProductBase) :
  (map item_pair items).*1 = map product_id items.
Proof. induction items as [|i items IH]; [done|]. cbn. by rewrite <- IH. Qed.

Lemma line_pair_keys (lines : list OrderProduct) :
  (map line_pair lines).*1 = map op_product_id lines.
Proof. induction lines as [|i lines IH]; [done|]. cbn. by rewrite <- IH. Qed.

Lemma new_line_products id (us : list (Z * Z)) :
  map op_product_id (map (new_line id) us) = us.*1.
Proof. induction us as [|u us IH]; [done|]. cbn. by rewrite IH. Qed.

(** ** The lines of an order after each operation *)

Lemma filter_new_lines_ne id id' (us : list (Z * Z)) :
  id ≠ id' → filter (λ op, op_order_id op = id') (map (new_line id) us) = [].
Proof.
  intros Hne. apply filter_all_false, Forall_forall. intros op Hop.
  apply list_elem_of_fmap in Hop as (u & -> & _). cbn. done.
Qed.

Lemma filter_lines_keep id id' (l : list OrderProduct) :
  id ≠ id' →
  filter (λ op, op_order_id op = id') (filter (λ op, op_order_id op ≠ id) l) =
    filter (λ op, op_order_id op = id') l.
Proof.
  intros Hne. induction l as [|op l IH]; [done|].
  destruct (decide (op_order_id op = id')) as [Heq|Hneq].
  - rewrite (filter_cons_True (λ op, op_order_id op ≠ id)) by congruence.
    by rewrite !filter_cons_True, IH.
  - rewrite (filter_cons_False (λ op, op_order_id op = id') op l) by done.
    destruct (decide (op_order_id op = id)) as [Heq'|Hneq'].
    + by rewrite (filter_cons_False (λ op, op_order_id op ≠ id)) by tauto.
    + rewrite (filter_cons_True (λ op, op_order_id op ≠ id)) by done.
      by rewrite filter_cons_False.
Qed.

Lemma lines_of_created_other now order d id :
  id ≠ next_order_id d → lines_of id (created_db now order d) = lines_of id d.
Proof.
  intros Hne. unfold lines_of, created_db. cbn.
  rewrite filter_app, filter_new_lines_ne, app_nil_r; done.
Qed.

Lemma lines_of_updated id upd o d :
  lines_of id (updated_db id upd o d) =
    map (new_line id) (map item_pair (products (update_base upd))).
Proof.
  unfold lines_of, updated_db. cbn.
  by rewrite filter_app, filter_lines_other, filter_new_lines.
Qed.

Lemma lines_of_updated_other id upd o d id' :
  id ≠ id' → lines_of id' (updated_db id upd o d) = lines_of id' d.
Proof.
  intros Hne. unfold lines_of, updated_db. cbn.
  by rewrite filter_app, filter_new_lines_ne, app_nil_r, filter_lines_keep.
Qed.

Lemma lines_of_deleted id d : lines_of id (deleted_db id d) = [].
Proof. apply filter_lines_other. Qed.

Lemma lines_of_deleted_other id d id' :
  id ≠ id' → lines_of id' (deleted_db id d) = lines_of id' d.
Proof. intros Hne. by apply filter_lines_keep. Qed.

(** ** Reserved quantities *)

Lemma reserved_wf d i :
  db_wf d → reserved d i = sum_on i (map line_pair (tbl_order_products d)).
Proof.
  intros [_ Hfk]. unfold reserved, live_lines. by rewrite filter_all_true.
Qed.

(** ** The constraints of the database are kept *)

Lemma db_wf_created now order d : db_wf d → db_wf (created_db now order d).
Proof.
  intros [Hlt Hfk]. split; cbn.
  - intros id. rewrite lookup_insert_is_Some. intros [<-|[_ Hid]]; [lia|].
    specialize (Hlt id Hid). lia.
  - apply Forall_app. split.
    + eapply Forall_impl; [exact Hfk|]. cbn. intros op Hop.
      rewrite lookup_insert_is_Some.
      destruct (decide (next_order_id d = op_order_id op)); [by left|by right].
    + apply Forall_forall. intros op Hop.
      apply list_elem_of_fmap in Hop as (u & -> & _). cbn.
      rewrite lookup_insert_eq. by eexists.
Qed.

Lemma db_wf_updated id upd o d :
  db_wf d → tbl_orders d !! id = Some o → db_wf (updated_db id upd o d).
Proof.
  intros [Hlt Hfk] Ho. split; cbn.
  - intros id'. rewrite lookup_insert_is_Some. intros [<-|[_ Hid]]; [|auto].
    apply Hlt. by eexists.
  - apply Forall_app. split.
    + apply Forall_forall. intros op [Hne Hop]%list_elem_of_filter.
      rewrite Forall_forall in Hfk. rewrite lookup_insert_is_Some.
      right. split; [congruence|auto].
    + apply Forall_forall. intros op Hop.
      apply list_elem_of_fmap in Hop as (u & -> & _). cbn.
      rewrite lookup_insert_eq. by eexists.
Qed.

Lemma db_wf_deleted id d : db_wf d → db_wf (deleted_db id d).
Proof.
  intros [Hlt Hfk]. split; cbn.
  - intros id'. rewrite lookup_delete_is_Some. intros [_ Hid]. auto.
  - apply Forall_forall. intros op [Hne Hop]%list_elem_of_filter.
    rewrite Forall_forall in Hfk. rewrite lookup_delete_is_Some.
    split; [congruence|auto].
Qed.

(** ** Stock plus reserved quantity is kept *)

Lemma sum_on_lines_split id i (rows : list OrderProduct) :
  sum_on i (map line_pair rows) =
    sum_on i (map line_pair (filter (λ op, op_order_id op = id) rows))
    + sum_on i (map line_pair (filter (λ op, op_order_id op ≠ id) rows)).
Proof. exact (sum_on_filter_split line_pair (λ op, op_order_id op = id) i rows). Qed.

Lemma provisioned_eq (x : option Product) s r r' :
  s + r' = r →
  (λ p, p_stock p + r') <$> (add_stock s <$> x) = (λ p, p_stock p + r) <$> x.
Proof.
  intros <-. destruct x as [p|]; cbn; [|done]. f_equal.
  unfold add_stock, set_stock. cbn. lia.
Qed.

Lemma provisioned_created now order d i :
  db_wf d → provisioned (created_db now order d) i = provisioned d i.
Proof.
  intros Hwf. unfold provisioned.
  rewrite !reserved_wf by (done || by apply db_wf_created).
  unfold created_db. cbn [tbl_products tbl_order_products].
  rewrite lookup_adjust_all.
  rewrite map_app, sum_on_app, line_pair_new_line, sum_on_neg.
  apply provisioned_eq. lia.
Qed.

Lemma provisioned_deleted id d i :
  db_wf d → provisioned (deleted_db id d) i = provisioned d i.
Proof.
  intros Hwf. unfold provisioned.
  rewrite !reserved_wf by (done || by apply db_wf_deleted).
  unfold deleted_db. cbn [tbl_products tbl_order_products].
  rewrite lookup_adjust_all.
  rewrite (sum_on_lines_split id i (tbl_order_products d)).
  unfold lines_of. apply provisioned_eq. lia.
Qed.

Lemma provisioned_updated id upd o d i :
  db_wf d → tbl_orders d !! id = Some o →
  NoDup (map op_product_id (lines_of id d)) →
  NoDup (map product_id (products (update_base upd))) →
  provisioned (updated_db id upd o d) i = provisioned d i.
Proof.
  intros Hwf Ho Hold Hnew. unfold provisioned.
  rewrite !reserved_wf by (done || by apply db_wf_updated).
  unfold updated_db. cbn [tbl_products tbl_order_products].
  rewrite lookup_adjust_all.
  unfold stock_changes_of. rewrite update_delta by apply dict_of_NoDup.
  unfold existing_map, new_map.
  rewrite !dict_of_distinct
    by (by rewrite ?line_pair_keys, ?item_pair_keys).
  rewrite <- !sum_on_dict by (by rewrite ?line_pair_keys, ?item_pair_keys).
  rewrite map_app, sum_on_app, line_pair_new_line.
  rewrite (sum_on_lines_split id i (tbl_order_products d)).
  unfold lines_of. apply provisioned_eq. lia.
Qed.

(** ** No stock becomes negative, and stored lines stay line sets *)

Lemma first_update_error_None prods sc :
  first_update_error prods sc = None →
  Forall (λ kv, update_error prods kv = None) sc.
Proof.
  induction sc as [|kv sc IH]; cbn; [constructor|].
  destruct (update_error prods kv) eqn:He; [done|]. intros Hf. constructor; auto.
Qed.

Lemma change_for_increase old new i :
  dict_get_default old i 0 < dict_get_default new i 0 →
  change_for old new i = Some (dict_get_default new i 0 - dict_get_default old i 0).
Proof.
  unfold change_for, dict_get_default.
  destruct (dict_get old i) as [oq|]; cbn.
  - intros Hlt. rewrite Z.gtb_ltb.
    destruct (Z.ltb_spec (default 0 (dict_get new i)) oq); [lia|].
    destruct (Z.ltb_spec oq (default 0 (dict_get new i))); [done|lia].
  - destruct (dict_get new i) as [nq|]; cbn; [|lia].
    intros _. by rewrite Z.sub_0_r.
Qed.

Lemma nonneg_filter (P : OrderProduct → Prop) `{∀ x, Decision (P x)} rows :
  Forall (λ op, 0 ≤ op_quantity op) rows →
  Forall (λ op, 0 ≤ op_quantity op) (filter P rows).
Proof.
  rewrite !Forall_forall. intros Hall op [_ Hop]%list_elem_of_filter. auto.
Qed.

Lemma nonneg_new_lines id (items : list OrderProductBase) :
  Forall (λ i, 0 ≤ quantity i) items →
  Forall (λ op, 0 ≤ op_quantity op) (map (new_line id) (map item_pair items)).
Proof.
  induction 1 as [|i items Hi _ IH]; [constructor|]. cbn. by constructor.
Qed.

Lemma stock_ok_created now order d :
  db_wf d → stock_ok d →
  first_error (tbl_products d) (products order) = None →
  proper_lines (products order) →
  stock_ok (created_db now order d).
Proof.
  intros Hwf (Hst & Hnd & Hpos) Hfe [Hdist Hq]. split; [|split].
  - intros i p'. unfold created_db. cbn [tbl_products].
    rewrite lookup_adjust_all, sum_on_neg.
    destruct (tbl_products d !! i) as [p|] eqn:Hp; [|done]. cbn.
    intros [= <-]. rewrite p_stock_add_stock.
    rewrite sum_on_dict by (by rewrite item_pair_keys).
    unfold dict_get_default.
    destruct (dict_get (map item_pair (products order)) i) as [q|] eqn:Hg; cbn.
    + apply dict_get_Some_elem_of, list_elem_of_fmap in Hg as (item & Hi & Hin).
      apply first_error_None in Hfe. rewrite Forall_forall in Hfe.
      destruct (check_item_None _ _ (Hfe item Hin)) as (p0 & Hp0 & Hle).
      injection Hi as -> ->. rewrite Hp in Hp0. injection Hp0 as <-. lia.
    + specialize (Hst i p Hp). lia.
  - intros id. destruct (decide (id = next_order_id d)) as [->|Hne].
    + rewrite lines_of_created by done.
      by rewrite new_line_products, item_pair_keys.
    + by rewrite lines_of_created_other.
  - unfold created_db. cbn [tbl_order_products]. apply Forall_app.
    split; [done|]. by apply nonneg_new_lines.
Qed.

Lemma stock_ok_updated id upd o d :
  stock_ok d →
  first_update_error (tbl_products d) (stock_changes_of id upd d) = None →
  proper_lines (products (update_base upd)) →
  stock_ok (updated_db id upd o d).
Proof.
  intros (Hst & Hnd & Hpos) Hfe [Hdist Hq]. split; [|split].
  - intros i p'. unfold updated_db. cbn [tbl_products].
    rewrite lookup_adjust_all. unfold stock_changes_of.
    rewrite update_delta by apply dict_of_NoDup.
    destruct (tbl_products d !! i) as [p|] eqn:Hp; [|done]. cbn.
    intros [= <-]. rewrite p_stock_add_stock. specialize (Hst i p Hp).
    destruct (decide (dict_get_default (new_map upd) i 0
                      ≤ dict_get_default (existing_map id d) i 0)) as [Hle|Hgt];
      [lia|].
    assert (dict_get (stock_changes_of id upd d) i =
            Some (dict_get_default (new_map upd) i 0
                  - dict_get_default (existing_map id d) i 0)) as Hc.
    { unfold stock_changes_of.
      rewrite compute_stock_changes_get by apply dict_of_NoDup.
      apply change_for_increase. lia. }
    apply dict_get_Some_elem_of in Hc.
    apply first_update_error_None in Hfe. rewrite Forall_forall in Hfe.
    specialize (Hfe _ Hc). unfold update_error in Hfe. cbn [fst snd] in Hfe.
    rewrite Hp in Hfe.
    destruct (_ >? 0) eqn:Hpos'; [|rewrite Z.gtb_ltb in Hpos'; lia].
    cbn in Hfe.
    destruct (Z.ltb_spec (p_stock p)
                (dict_get_default (new_map upd) i 0
                 - dict_get_default (existing_map id d) i 0)); [done|lia].
  - intros id'. destruct (decide (id = id')) as [<-|Hne].
    + rewrite lines_of_updated. by rewrite new_line_products, item_pair_keys.
    + by rewrite lines_of_updated_other.
  - unfold updated_db. cbn [tbl_order_products]. apply Forall_app.
    split; [by apply nonneg_filter|by apply nonneg_new_lines].
Qed.

Lemma stock_ok_deleted id d : stock_ok d → stock_ok (deleted_db id d).
Proof.
  intros (Hst & Hnd & Hpos). split; [|split].
  - intros i p'. unfold deleted_db. cbn [tbl_products].
    rewrite lookup_adjust_all.
    destruct (tbl_products d !! i) as [p|] eqn:Hp; [|done]. cbn.
    intros [= <-]. rewrite p_stock_add_stock. specialize (Hst i p Hp).
    assert (0 ≤ sum_on i (map line_pair (lines_of id d))); [|lia].
    apply sum_on_nonneg, Forall_forall. intros u Hu.
    apply list_elem_of_fmap in Hu as (op & -> & Hop).
    apply list_elem_of_filter in Hop as [_ Hop].
    rewrite Forall_forall in Hpos. specialize (Hpos op Hop). cbn. lia.
  - intros id'. destruct (decide (id = id')) as [<-|Hne].
    + rewrite lines_of_deleted. constructor.
    + by rewrite lines_of_deleted_other.
  - unfold deleted_db. cbn [tbl_order_products]. by apply nonneg_filter.
Qed.

(** ** Lines keep their products and orders keep their totals *)

Lemma foldl_add_line_adjust ds prods l : ∀ total,
  foldl (add_line (adjust_all ds prods)) total l = foldl (add_line prods) total l.
Proof.
  induction l as [|u l IH]; intros total; [done|].
  cbn [foldl]. by rewrite add_line_adjust, IH.
Qed.

Lemma lines_have_products_adjust ds prods (lines : list OrderProduct) :
  Forall (λ op, is_Some (prods !! op_product_id op)) lines →
  Forall (λ op, is_Some (adjust_all ds prods !! op_product_id op)) lines.
Proof.
  intros Hl. eapply Forall_impl; [exact Hl|].
  intros op. by rewrite lookup_adjust_all_is_Some.
Qed.

Lemma new_lines_have_products id (prods : gmap Z Product) items :
  lines_exist prods items = true →
  Forall (λ op, is_Some (prods !! op_product_id op))
    (map (new_line id) (map item_pair items)).
Proof.
  induction items as [|i items IH]; [constructor|].
  cbn. intros [Hi Hex]%andb_prop. apply bool_decide_eq_true in Hi.
  constructor; auto.
Qed.

Lemma first_error_lines_exist prods items :
  first_error prods items = None → lines_exist prods items = true.
Proof.
  intros Hfe%first_error_None. induction Hfe as [|i items Hi _ IH]; [done|].
  destruct (check_item_None _ _ Hi) as (p & Hp & _).
  unfold lines_exist in *. cbn [forallb].
  by rewrite IH, bool_decide_eq_true_2 by (by rewrite Hp).
Qed.

Lemma ledger_ok_created now order d :
  ledger_ok d →
  first_error (tbl_products d) (products order) = None →
  ledger_ok (created_db now order d).
Proof.
  intros [Hwf Hok] Hfe. split; [by apply db_wf_created|].
  intros id o. destruct (decide (id = next_order_id d)) as [->|Hne].
  - rewrite lines_of_created by done. unfold created_db. cbn [tbl_orders tbl_products].
    rewrite lookup_insert_eq. intros [= <-]. split.
    + apply new_lines_have_products. rewrite lines_exist_adjust.
      by apply first_error_lines_exist.
    + cbn. by rewrite line_pair_new_line, foldl_add_line_adjust.
  - rewrite lines_of_created_other by done.
    unfold created_db. cbn [tbl_orders tbl_products].
    rewrite lookup_insert_ne by done. intros Ho.
    destruct (Hok id o Ho) as [Hex Htot]. split.
    + by apply lines_have_products_adjust.
    + by rewrite foldl_add_line_adjust.
Qed.

Lemma ledger_ok_updated id upd o d :
  ledger_ok d → tbl_orders d !! id = Some o →
  lines_exist (tbl_products d) (products (update_base upd)) = true →
  ledger_ok (updated_db id upd o d).
Proof.
  intros [Hwf Hok] Ho Hex. split; [by apply db_wf_updated|].
  intros id' o'. destruct (decide (id = id')) as [<-|Hne].
  - rewrite lines_of_updated. unfold updated_db. cbn [tbl_orders tbl_products].
    rewrite lookup_insert_eq. intros [= <-]. split.
    + apply new_lines_have_products. by rewrite lines_exist_adjust.
    + cbn. by rewrite line_pair_new_line.
  - rewrite lines_of_updated_other by done.
    unfold updated_db. cbn [tbl_orders tbl_products].
    rewrite lookup_insert_ne by done. intros Ho'.
    destruct (Hok id' o' Ho') as [Hex' Htot]. split.
    + by apply lines_have_products_adjust.
    + by rewrite foldl_add_line_adjust.
Qed.

Lemma ledger_ok_deleted id d : ledger_ok d → ledger_ok (deleted_db id d).
Proof.
  intros [Hwf Hok]. split; [by apply db_wf_deleted|].
  intros id' o'. unfold deleted_db at 1. cbn [tbl_orders].
  rewrite lookup_delete_Some. intros [Hne Ho'].
  rewrite lines_of_deleted_other by done.
  unfold deleted_db. cbn [tbl_products].
  destruct (Hok id' o' Ho') as [Hex' Htot]. split.
  - by apply lines_have_products_adjust.
  - by rewrite foldl_add_line_adjust.
Qed.

(** ** What a request leaves committed *)

Lemma handle_cases r w :
  locks w = ∅ →
  locks (handle r w) = ∅ ∧
  (stored (handle r w) = stored w ∨
   match r with
   | POST_orders now order =>
       first_error (tbl_products (stored w)) (products order) = None ∧
       stored (handle r w) = created_db now order (stored w)
   | PUT_orders id upd =>
       ∃ o, tbl_orders (stored w) !! id = Some o ∧
            first_update_error (tbl_products (stored w))
              (stock_changes_of id upd (stored w)) = None ∧
            lines_exist (tbl_products (stored w)) (products (update_base upd)) = true ∧
            stored (handle r w) = updated_db id upd o (stored w)
   | DELETE_orders id =>
       stored (handle r w) = deleted_db id (stored w)
   end).
Proof.
  intros Hl. set (w0 := set_session (λ _, stored w) w).
  assert (locks w0 = ∅) as Hl0 by done.
  destruct r as [now order|id upd|id]; cbn [handle].
  - unfold create_order, get_db, except_ValueError. fold w0.
    rewrite crud_create_order_run by done.
    destruct (first_error _ _) eqn:Hfe; [by split; [|left]|].
    cbv zeta. destruct (ledger_document _ _); cbn; (split; [done|right; done]).
  - unfold update_order, get_db, except_ValueError. fold w0.
    destruct (crud_update_order_run id upd w0 Hl0) as (evs & ses & Hr).
    unfold update_result in Hr. cbn [session w0 set_session] in Hr.
    destruct (tbl_orders (stored w) !! id) as [o|] eqn:Ho;
      [|rewrite Hr; by split; [|left]].
    destruct (first_update_error _ _) as [e|] eqn:Hfe;
      [rewrite Hr; destruct e; by split; [|left]|].
    destruct (lines_exist _ _) eqn:Hex; [|rewrite Hr; by split; [|left]].
    destruct Hr as (o' & doc & _ & _ & Hr). rewrite Hr. cbn.
    split; [done|]. right. by exists o.
  - unfold delete_order, get_db, except_HTTPException. fold w0.
    pose proof (crud_delete_order_run id w0 Hl0) as Hr.
    cbn [session w0 set_session] in Hr.
    destruct (tbl_orders (stored w) !! id) as [o|] eqn:Ho.
    + destruct Hr as [evs Hr]. rewrite Hr. cbn. split; [done|by right].
    + rewrite Hr. cbn. split; [done|by left].
Qed.

Lemma serve_cons r rs w : serve (r :: rs) w = serve rs (handle r w).
Proof. done. Qed.

Lemma handle_keeps r w :
  locks w = ∅ → db_wf (stored w) → stock_ok (stored w) → proper_request r →
  locks (handle r w) = ∅ ∧ db_wf (stored (handle r w)) ∧
  stock_ok (stored (handle r w)) ∧
  ∀ i, provisioned (stored (handle r w)) i = provisioned (stored w) i.
Proof.
  intros Hl Hwf Hst Hr. destruct (handle_cases r w Hl) as [Hl' [Hsame|Hnew]].
  { rewrite Hsame. done. }
  split; [done|]. destruct r as [now order|id upd|id]; cbn in Hr.
  - destruct Hnew as [Hfe ->]. split; [by apply db_wf_created|].
    split; [by apply stock_ok_created|]. intros i. by apply provisioned_created.
  - destruct Hnew as (o & Ho & Hfe & Hex & ->). split; [by apply db_wf_updated|].
    split; [by apply stock_ok_updated|]. intros i.
    apply provisioned_updated; [done|done| |apply Hr]. apply Hst.
  - rewrite Hnew. split; [by apply db_wf_deleted|].
    split; [by apply stock_ok_deleted|]. intros i. by apply provisioned_deleted.
Qed.

(** C1, as the code has it.  Requests are handled one at a time, starting
    from tables that meet the constraints of the database, hold no negative
    stock and store line sets; each create and update request carries a line
    set: at most one line for a product, no negative quantity.  Then for
    every product the stock plus the quantity that the lines of the existing
    orders reserve is what it was at the start, and no stock is negative. *)
Theorem conservation_for_line_sets rs : ∀ w,
  locks w = ∅ →
  db_wf (stored w) →
  stock_ok (stored w) →
  Forall proper_request rs →
  (∀ i, provisioned (stored (serve rs w)) i = provisioned (stored w) i) ∧
  (∀ i p, tbl_products (stored (serve rs w)) !! i = Some p → 0 ≤ p_stock p).
Proof.
  induction rs as [|r rs IH]; intros w Hl Hwf Hst Hrs.
  - split; [done|]. apply Hst.
  - apply Forall_cons in Hrs as [Hr Hrs]. rewrite serve_cons.
    destruct (handle_keeps r w Hl Hwf Hst Hr) as (Hl' & Hwf' & Hst' & Hp).
    destruct (IH (handle r w) Hl' Hwf' Hst' Hrs) as [Hp' Hnn].
    split; [|done]. intros i. by rewrite Hp', Hp.
Qed.

(** X19. Lines that have their products and totals that are those of the
    lines are kept by every request whose commit the database accepts: they
    hold after any sequence of requests that starts where they hold, the
    tables fitting their columns at the start and after every request. *)
Lemma serve_ledger_ok rs w :
  locks w = ∅ → ledger_ok (stored w) →
  reached_fit rs w = true →
  locks (serve rs w) = ∅ ∧ ledger_ok (stored (serve rs w)).
Proof.
  intros Hl Hok _. revert w Hl Hok.
  induction rs as [|r rs IH]; intros w Hl Hok; [done|].
  rewrite serve_cons. destruct (handle_cases r w Hl) as [Hl' Hcases].
  apply IH; [done|]. destruct Hcases as [->|Hnew]; [done|].
  destruct r as [now order|id upd|id].
  - destruct Hnew as [Hfe ->]. by apply ledger_ok_created.
  - destruct Hnew as (o & Ho & Hfe & Hex & ->). by apply ledger_ok_updated.
  - rewrite Hnew. by apply ledger_ok_deleted.
Qed.

(** ** The validation of an update that only gives units back *)

(** C3 fails on the code.  When an order with one line is updated to fewer
    units of the same product, the only stock change is a restock; the
    validation loop compares the stock with its magnitude all the same, and
    the call raises 400 "Not enough stock" whenever the stock is below the
    number of units that would come back. *)
Theorem restock_is_validated id order_data w o pid old_quantity new_quantity p :
  locks w = ∅ →
  tbl_orders (session w) !! id = Some o →
  map line_pair (lines_of id (session w)) = [(pid, old_quantity)] →
  map item_pair (products (update_base order_data)) = [(pid, new_quantity)] →
  new_quantity < old_quantity →
  tbl_products (session w) !! pid = Some p →
  p_stock p < old_quantity - new_quantity →
  (crud_update_order id order_data w).1
    = Raise (HTTPException 400 (NotEnoughStock pid)).
Proof.
  intros Hl Ho Hold Hnew Hlt Hp Hstock.
  assert (stock_changes_of id order_data (session w)
          = [(pid, old_quantity - new_quantity)]) as Hsc.
  { unfold stock_changes_of, existing_map, new_map. rewrite Hold, Hnew.
    unfold compute_stock_changes, dict_of. cbn.
    unfold changes_of_existing, changes_of_new, dict_contains, dict_get_default.
    cbn. rewrite !decide_True by done. cbn.
    destruct (Z.ltb_spec new_quantity old_quantity); [done|lia]. }
  assert (update_result id order_data (session w)
          = inl (HTTPException 400 (NotEnoughStock pid))) as Hres.
  { unfold update_result. rewrite Ho, Hsc. cbn [first_update_error].
    unfold update_error. cbn [fst snd]. rewrite Hp, Z.gtb_ltb.
    destruct (Z.ltb_spec 0 (old_quantity - new_quantity)); [|lia].
    destruct (Z.ltb_spec (p_stock p) (old_quantity - new_quantity)); [done|lia]. }
  destruct (crud_update_order_run id order_data w Hl) as (evs & ses & Hr).
  rewrite Hres in Hr. by rewrite Hr.
Qed.

(** ** How update-order and delete-order fail *)

Lemma first_update_error_Some prods sc e :
  first_update_error prods sc = Some e →
  ∃ kv, kv ∈ sc ∧ update_error prods kv = Some e.
Proof.
  induction sc as [|kv sc IH]; cbn; [done|].
  destruct (update_error prods kv) as [e'|] eqn:He.
  - intros [= ->]. exists kv. split; [left|done].
  - intros Hf. destruct (IH Hf) as (kv' & Hin & Hkv).
    exists kv'. split; [by right|done].
Qed.

Lemma update_error_Some prods kv e :
  update_error prods kv = Some e →
  (e = HTTPException 404 (ProductNotFound kv.1) ∧ prods !! kv.1 = None) ∨
  (e = HTTPException 400 (NotEnoughStock kv.1) ∧ 0 < kv.2 ∧
   ∃ p, prods !! kv.1 = Some p ∧ p_stock p < kv.2).
Proof.
  unfold update_error. destruct (prods !! kv.1) as [p|].
  - rewrite Z.gtb_ltb. destruct (Z.ltb_spec 0 kv.2); cbn; [|done].
    destruct (Z.ltb_spec (p_stock p) kv.2); [|done].
    intros [= <-]. right. split; [done|]. split; [done|]. by exists p.
  - intros [= <-]. by left.
Qed.

Lemma lines_exist_false (prods : gmap Z Product) items :
  lines_exist prods items = false →
  ∃ item, item ∈ items ∧ prods !! product_id item = None.
Proof.
  unfold lines_exist. induction items as [|i items IH]; cbn; [done|].
  destruct (prods !! product_id i) as [p|] eqn:Hp.
  - rewrite bool_decide_eq_true_2 by done. cbn. intros Hf.
    destruct (IH Hf) as (item & Hin & Hitem). exists item. split; [by right|done].
  - intros _. exists i. split; [left|done].
Qed.

Lemma crud_update_order_Raise id upd w e w' :
  locks w = ∅ →
  crud_update_order id upd w = (Raise e, w') →
  update_result id upd (session w) = inl e ∧
  stored w' = stored w ∧ index w' = index w ∧ locks w' = ∅.
Proof.
  intros Hl Hrun. destruct (crud_update_order_run id upd w Hl) as (evs & ses & Hr).
  destruct (update_result id upd (session w)) as [e0|d].
  - rewrite Hr in Hrun. by injection Hrun as -> <-.
  - destruct Hr as (o & doc & _ & _ & Hr). rewrite Hr in Hrun. done.
Qed.

(** X1. An update-order that raises, whatever the exception, has committed
    nothing: the tables and the index are those from before the call, and no
    lock is left held. *)
Theorem update_order_failure_commits_nothing id order_data w e w' :
  locks w = ∅ →
  crud_update_order id order_data w = (Raise e, w') →
  stored w' = stored w ∧ index w' = index w ∧ locks w' = ∅.
Proof. intros Hl Hrun. by destruct (crud_update_order_Raise _ _ _ _ _ Hl Hrun) as [_ ?]. Qed.

(** X2. When the tables update-order would commit fit their columns, so
    that the database accepts the commit, every exception of update-order has
    its reason in the data: 404 "Order not found" when the order has no row;
    404 naming a product of stock_changes that has no row; 400 naming a
    product of stock_changes whose stock is below the positive change
    recorded for it; AttributeError when a requested line names a product
    without a row. *)
Theorem update_order_raises_for_a_reason id order_data w e w' :
  locks w = ∅ →
  (∀ existing,
     tbl_orders (session w) !! id = Some existing →
     fits (updated_db id order_data existing (session w)) = true) →
  crud_update_order id order_data w = (Raise e, w') →
  (e = HTTPException 404 OrderNotFound ∧ tbl_orders (session w) !! id = None) ∨
  (∃ pid change,
     (pid, change) ∈ stock_changes_of id order_data (session w) ∧
     ((e = HTTPException 404 (ProductNotFound pid) ∧
       tbl_products (session w) !! pid = None) ∨
      (e = HTTPException 400 (NotEnoughStock pid) ∧ 0 < change ∧
       ∃ p, tbl_products (session w) !! pid = Some p ∧ p_stock p < change))) ∨
  (e = AttributeError ∧
   ∃ item, item ∈ products (update_base order_data) ∧
           tbl_products (session w) !! product_id item = None).
Proof.
  intros Hl _ Hrun.
  destruct (crud_update_order_Raise _ _ _ _ _ Hl Hrun) as [Hres _].
  unfold update_result in Hres.
  destruct (tbl_orders (session w) !! id) as [o|]; [|injection Hres as <-; by left].
  right. destruct (first_update_error _ _) as [e0|] eqn:Hfe.
  - injection Hres as ->. left.
    destruct (first_update_error_Some _ _ _ Hfe) as ([pid change] & Hin & Hkv).
    exists pid, change. split; [done|]. by apply update_error_Some in Hkv.
  - destruct (lines_exist _ _) eqn:Hex; [done|]. injection Hres as <-. right.
    split; [done|]. by apply lines_exist_false.
Qed.

(** X3. For an order id that has no row, update-order and delete-order raise
    404 "Order not found" at once: no lock is taken, no row is read for
    update, and the world is the one from before the call. *)
Theorem missing_order_is_not_found id w :
  tbl_orders (session w) !! id = None →
  (∀ order_data,
     crud_update_order id order_data w = (Raise (HTTPException 404 OrderNotFound), w)) ∧
  crud_delete_order id w = (Raise (HTTPException 404 OrderNotFound), w).
Proof.
  intros Ho. split; [intros order_data|].
  - unfold crud_update_order. erewrite bind_run by reflexivity. by rewrite Ho.
  - unfold crud_delete_order. erewrite bind_run by reflexivity. by rewrite Ho.
Qed.

(** X4. Starting with no lock held, create-order, update-order and
    delete-order never end up spinning on a lock and hold no lock when they
    end, whether they return or raise. *)
Theorem locks_are_given_back w :
  locks w = ∅ →
  (∀ now order,
     locks (crud_create_order now order w).2 = ∅ ∧
     ∀ k, (crud_create_order now order w).1 ≠ Blocked k) ∧
  (∀ id order_data,
     locks (crud_update_order id order_data w).2 = ∅ ∧
     ∀ k, (crud_update_order id order_data w).1 ≠ Blocked k) ∧
  (∀ id,
     locks (crud_delete_order id w).2 = ∅ ∧
     ∀ k, (crud_delete_order id w).1 ≠ Blocked k).
Proof.
  intros Hl. split; [|split].
  - intros now order. rewrite crud_create_order_run by done.
    destruct (first_error _ _); [done|]. cbv zeta.
    by destruct (ledger_document _ _).
  - intros id upd. destruct (crud_update_order_run id upd w Hl) as (evs & ses & Hr).
    destruct (update_result id upd (session w)) as [e|d].
    + by rewrite Hr.
    + destruct Hr as (o & doc & _ & _ & Hr). by rewrite Hr.
  - intros id. pose proof (crud_delete_order_run id w Hl) as Hr.
    destruct (tbl_orders (session w) !! id).
    + destruct Hr as [evs Hr]. by rewrite Hr.
    + by rewrite Hr.
Qed.

(** ** What the operations leave alone *)

Lemma update_result_inr id upd d d' :
  update_result id upd d = inr d' →
  ∃ o, tbl_orders d !! id = Some o ∧
       first_update_error (tbl_products d) (stock_changes_of id upd d) = None ∧
       lines_exist (tbl_products d) (products (update_base upd)) = true ∧
       d' = updated_db id upd o d.
Proof.
  unfold update_result. destruct (tbl_orders d !! id) as [o|]; [|done].
  destruct (first_update_error _ _); [done|].
  destruct (lines_exist _ _); [|done]. intros [= <-]. by exists o.
Qed.

(** X5. An update-order or delete-order of one order, and a create-order,
    leave every other order as it was: its row, its lines and its document. *)
Theorem other_orders_are_untouched :
  (∀ now order w id w' id',
     locks w = ∅ →
     crud_create_order now order w = (Return id, w') →
     id' ≠ id →
     tbl_orders (stored w') !! id' = tbl_orders (session w) !! id' ∧
     lines_of id' (stored w') = lines_of id' (session w) ∧
     index w' !! id' = index w !! id') ∧
  (∀ id order_data w o w' id',
     locks w = ∅ →
     crud_update_order id order_data w = (Return o, w') →
     id' ≠ id →
     tbl_orders (stored w') !! id' = tbl_orders (session w) !! id' ∧
     lines_of id' (stored w') = lines_of id' (session w) ∧
     index w' !! id' = index w !! id') ∧
  (∀ id w o w' id',
     locks w = ∅ →
     crud_delete_order id w = (Return o, w') →
     id' ≠ id →
     tbl_orders (stored w') !! id' = tbl_orders (session w) !! id' ∧
     lines_of id' (stored w') = lines_of id' (session w) ∧
     index w' !! id' = index w !! id').
Proof.
  split; [|split].
  - intros now order w id w' id' Hl Hrun Hne.
    destruct (crud_create_order_Return _ _ _ _ _ Hl Hrun)
      as (_ & -> & doc & _ & ->). cbn [stored index].
    split; [|split].
    + unfold created_db. cbn [tbl_orders]. by rewrite lookup_insert_ne.
    + by apply lines_of_created_other.
    + by rewrite lookup_insert_ne.
  - intros id upd w o w' id' Hl Hrun Hne.
    destruct (crud_update_order_Return _ _ _ _ _ Hl Hrun)
      as (d & doc & evs & Hres & _ & _ & ->). cbn [stored index].
    destruct (update_result_inr _ _ _ _ Hres) as (o0 & _ & _ & _ & ->).
    split; [|split].
    + unfold updated_db. cbn [tbl_orders]. by rewrite lookup_insert_ne.
    + by apply lines_of_updated_other.
    + by rewrite lookup_insert_ne.
  - intros id w o w' id' Hl Hrun Hne.
    destruct (crud_delete_order_Return _ _ _ _ Hl Hrun) as (_ & evs & ->).
    cbn [stored index]. split; [|split].
    + unfold deleted_db. cbn [tbl_orders]. by rewrite lookup_delete_ne.
    + by apply lines_of_deleted_other.
    + by rewrite lookup_delete_ne.
Qed.

Lemma product_card_adjust ds (prods : gmap Z Product) pid :
  product_card <$> adjust_all ds prods !! pid = product_card <$> prods !! pid.
Proof. rewrite lookup_adjust_all. by destruct (prods !! pid). Qed.

Lemma handle_keeps_cards r w pid :
  locks w = ∅ →
  product_card <$> tbl_products (stored (handle r w)) !! pid
    = product_card <$> tbl_products (stored w) !! pid.
Proof.
  intros Hl. destruct (handle_cases r w Hl) as [_ [->|Hnew]]; [done|].
  destruct r as [now order|id upd|id].
  - destruct Hnew as [_ ->]. apply product_card_adjust.
  - destruct Hnew as (o & _ & _ & _ & ->). apply product_card_adjust.
  - rewrite Hnew. apply product_card_adjust.
Qed.

(** X6. Whatever requests the three order endpoints handle, no product row is
    added or removed, and no product changes its name, description or price:
    of a product only the stock moves. *)
Theorem serve_keeps_product_cards rs : ∀ w pid,
  locks w = ∅ →
  product_card <$> tbl_products (stored (serve rs w)) !! pid
    = product_card <$> tbl_products (stored w) !! pid.
Proof.
  induction rs as [|r rs IH]; intros w pid Hl; [done|].
  rewrite serve_cons, IH by (by apply handle_cases).
  by apply handle_keeps_cards.
Qed.

(** X7. A delete-order that returns cannot be repeated: the second call for
    the same id raises 404 "Order not found" and changes nothing, so the
    units of an order go back to the stock once. *)
Theorem second_delete_is_not_found id w o w1 :
  locks w = ∅ →
  crud_delete_order id w = (Return o, w1) →
  crud_delete_order id w1 = (Raise (HTTPException 404 OrderNotFound), w1).
Proof.
  intros Hl Hrun.
  destruct (crud_delete_order_Return _ _ _ _ Hl Hrun) as (_ & evs & ->).
  unfold crud_delete_order. erewrite bind_run by reflexivity.
  cbn [session]. unfold deleted_db. cbn [tbl_orders]. by rewrite lookup_delete_eq.
Qed.

(** ** What the operations that return have done *)

Lemma update_products_lookup id upd w o w' pid :
  locks w = ∅ →
  crud_update_order id upd w = (Return o, w') →
  tbl_products (stored w') !! pid =
    add_stock (dict_get_default (existing_map id (session w)) pid 0
               - dict_get_default (new_map upd) pid 0)
      <$> tbl_products (session w) !! pid.
Proof.
  intros Hl Hrun.
  destruct (crud_update_order_Return _ _ _ _ _ Hl Hrun)
    as (d & doc & evs & Hres & _ & _ & ->). cbn [stored].
  destruct (update_result_inr _ _ _ _ Hres) as (o0 & _ & _ & _ & ->).
  unfold updated_db. cbn [tbl_products]. rewrite lookup_adjust_all.
  unfold stock_changes_of. by rewrite update_delta by apply dict_of_NoDup.
Qed.

Lemma existing_map_updated id upd o d :
  existing_map id (updated_db id upd o d) = new_map upd.
Proof.
  unfold existing_map, new_map. by rewrite lines_of_updated, line_pair_new_line.
Qed.

(** X8. Two update-orders of the same order in a row, both returning, move
    the stock of every product as one update from the first lines to the last
    would: by the quantity the last request gives the product minus the
    quantity the order gave it at the start.  Updating back to the lines the
    order had therefore restores every stock. *)
Theorem consecutive_updates_compose id first second w o1 w1 o2 w2 pid p :
  locks w = ∅ →
  crud_update_order id first w = (Return o1, w1) →
  crud_update_order id second w1 = (Return o2, w2) →
  tbl_products (session w) !! pid = Some p →
  ∃ p2,
    tbl_products (stored w2) !! pid = Some p2 ∧
    p_stock p2 =
      p_stock p - (dict_get_default (new_map second) pid 0
                   - dict_get_default (existing_map id (session w)) pid 0).
Proof.
  intros Hl Hrun1 Hrun2 Hp.
  pose proof (update_products_lookup _ _ _ _ _ pid Hl Hrun1) as H1.
  destruct (crud_update_order_Return _ _ _ _ _ Hl Hrun1)
    as (d & doc & evs & Hres & _ & _ & Hw1).
  destruct (update_result_inr _ _ _ _ Hres) as (o0 & _ & _ & _ & Hd).
  assert (locks w1 = ∅) as Hl1 by by rewrite Hw1.
  pose proof (update_products_lookup _ _ _ _ _ pid Hl1 Hrun2) as H2.
  assert (session w1 = stored w1) as Hs by by rewrite Hw1.
  rewrite Hs, H1, Hp in H2. cbn in H2.
  assert (existing_map id (stored w1) = new_map first) as Hm
    by (rewrite Hw1; cbn [stored]; rewrite Hd; apply existing_map_updated).
  rewrite Hm in H2. eexists. split; [exact H2|].
  rewrite !p_stock_add_stock. lia.
Qed.

Lemma first_error_passes prods items :
  (∀ item, item ∈ items →
     ∃ p, prods !! product_id item = Some p ∧ quantity item ≤ p_stock p) →
  first_error prods items = None.
Proof.
  induction items as [|i items IH]; intros Hall; [done|]. cbn.
  destruct (Hall i) as (p & Hp & Hle); [left|].
  unfold check_item at 1. rewrite Hp.
  destruct (Z.ltb_spec (p_stock p) (quantity i)); [lia|].
  apply IH. intros item Hin. apply Hall. by right.
Qed.

Lemma created_document now order d :
  db_wf d →
  first_error (tbl_products d) (products order) = None →
  is_Some (ledger_document (created_db now order d) (next_order_id d)).
Proof.
  intros Hwf Hfe. unfold ledger_document. rewrite lines_of_created by done.
  unfold created_db at 1. cbn [tbl_orders]. rewrite lookup_insert_eq.
  destruct (doc_lines_new (next_order_id d)
              (tbl_products (created_db now order d)) (products order))
    as [ds Hds].
  - unfold created_db. cbn [tbl_products]. rewrite lines_exist_adjust.
    by apply first_error_lines_exist.
  - rewrite Hds. by eexists.
Qed.

(** X9. With no lock held, the constraints of the database met and the
    tables to commit fitting their columns, create-order returns whenever
    every requested line names a product that has a row and at least the
    requested stock; a request without lines is one of these.  The order gets
    the next id and the total of its lines at the prices read, every product
    loses the sum of the quantities requested for it, and the lines of the
    order are the requested ones. *)
Theorem create_order_returns now order w :
  locks w = ∅ →
  db_wf (session w) →
  fits (created_db now order (session w)) = true →
  (∀ item, item ∈ products order →
     ∃ p, tbl_products (session w) !! product_id item = Some p ∧
          quantity item ≤ p_stock p) →
  ∃ w',
    crud_create_order now order w = (Return (next_order_id (session w)), w') ∧
    tbl_orders (stored w') !! next_order_id (session w) =
      Some {| o_name := name order; o_description := description order;
              o_created_at := now;
              o_total_amount :=
                foldl (add_line (tbl_products (session w))) float_zero
                  (map item_pair (products order)) |} ∧
    (∀ pid,
       tbl_products (stored w') !! pid =
         (λ p, set_stock
                 (p_stock p - sum_on pid (map item_pair (products order))) p)
           <$> tbl_products (session w) !! pid) ∧
    lines_of (next_order_id (session w)) (stored w') =
      map (λ i, {| op_order_id := next_order_id (session w);
                   op_product_id := product_id i; op_quantity := quantity i |})
        (products order) ∧
    next_order_id (stored w') = next_order_id (session w) + 1.
Proof.
  intros Hl Hwf _ Hall. apply first_error_passes in Hall.
  rewrite crud_create_order_run by done. rewrite Hall. cbv zeta.
  destruct (created_document now order (session w) Hwf Hall) as [doc Hdoc].
  rewrite Hdoc. eexists. split; [done|]. cbn [stored].
  split; [|split; [|split]].
  - unfold created_db. cbn [tbl_orders]. apply lookup_insert_eq.
  - intros pid. unfold created_db. cbn [tbl_products].
    by rewrite lookup_adjust_all, sum_on_neg.
  - rewrite lines_of_created by done. by rewrite map_map.
  - done.
Qed.

(** X10. An update-order that returns gives the order the name and the
    description of the request and the total of the requested lines at the
    prices of the table, and keeps the creation time of the order: the
    created_at that the request carries is read by nothing, and the call does
    the same whatever it is. *)
Theorem update_order_sets_fields id order_data w existing o w' :
  locks w = ∅ →
  tbl_orders (session w) !! id = Some existing →
  crud_update_order id order_data w = (Return o, w') →
  tbl_orders (stored w') !! id = Some o ∧
  o_name o = name (update_base order_data) ∧
  o_description o = description (update_base order_data) ∧
  o_created_at o = o_created_at existing ∧
  o_total_amount o =
    foldl (add_line (tbl_products (stored w'))) float_zero
      (map item_pair (products (update_base order_data))) ∧
  ∀ t, crud_update_order id
         {| update_base := update_base order_data; created_at := t |} w
       = (Return o, w').
Proof.
  intros Hl Ho Hrun.
  destruct (crud_update_order_Return _ _ _ _ _ Hl Hrun)
    as (d & doc & evs & Hres & Hod & _ & Hw).
  destruct (update_result_inr _ _ _ _ Hres) as (o0 & Ho0 & _ & _ & Hd).
  rewrite Ho in Ho0. injection Ho0 as <-.
  assert (stored w' = d) as Hs by by rewrite Hw.
  rewrite Hs. split; [done|].
  rewrite Hd in Hod. unfold updated_db in Hod. cbn [tbl_orders] in Hod.
  rewrite lookup_insert_eq in Hod. injection Hod as <-. cbn.
  repeat split; [by rewrite Hd|].
  intros t. rewrite <- Hrun. by destruct order_data.
Qed.

(** X11. create-order and delete-order conserve, for any request: when the
    constraints of the database are met and the call returns, the stock plus
    the quantity reserved by the lines of the existing orders is for every
    product what it was, also when lines repeat a product or carry a
    quantity of zero or below. *)
Theorem create_and_delete_conserve :
  (∀ now order w id w' pid,
     locks w = ∅ → db_wf (session w) →
     crud_create_order now order w = (Return id, w') →
     provisioned (stored w') pid = provisioned (session w) pid) ∧
  (∀ id w o w' pid,
     locks w = ∅ → db_wf (session w) →
     crud_delete_order id w = (Return o, w') →
     provisioned (stored w') pid = provisioned (session w) pid).
Proof.
  split.
  - intros now order w id w' pid Hl Hwf Hrun.
    destruct (crud_create_order_Return _ _ _ _ _ Hl Hrun)
      as (_ & _ & doc & _ & ->). cbn [stored]. by apply provisioned_created.
  - intros id w o w' pid Hl Hwf Hrun.
    destruct (crud_delete_order_Return _ _ _ _ Hl Hrun) as (_ & evs & ->).
    cbn [stored]. by apply provisioned_deleted.
Qed.


(** X12. The stock changes of update-order, key by key.  A product of the old
    lines has an entry exactly when the quantity the new lines give it
    (0 when they do not name it) differs from the old one, and the entry is
    the magnitude of the difference, without its sign; a product that only
    the new lines name has its new quantity as entry, be it zero or below. *)
Theorem stock_changes_entries old_lines new_lines pid :
  dict_get (compute_stock_changes (dict_of old_lines) (dict_of new_lines)) pid =
    match dict_get (dict_of old_lines) pid with
    | Some old_quantity =>
        if decide (dict_get_default (dict_of new_lines) pid 0 = old_quantity)
        then None
        else Some (Z.abs (dict_get_default (dict_of new_lines) pid 0 - old_quantity))
    | None => dict_get (dict_of new_lines) pid
    end.
Proof.
  rewrite compute_stock_changes_get by apply dict_of_NoDup.
  unfold change_for. destruct (dict_get (dict_of old_lines) pid) as [oq|]; [|done].
  cbv zeta. rewrite Z.gtb_ltb.
  destruct (Z.ltb_spec (dict_get_default (dict_of new_lines) pid 0) oq).
  - rewrite decide_False by lia. f_equal. lia.
  - destruct (Z.ltb_spec oq (dict_get_default (dict_of new_lines) pid 0)).
    + rewrite decide_False by lia. f_equal. lia.
    + rewrite decide_True by lia. done.
Qed.

(** ** The index follows the tables *)

Lemma doc_lines_adjust ds prods lines :
  doc_lines (adjust_all ds prods) lines = doc_lines prods lines.
Proof.
  induction lines as [|op lines IH]; [done|]. cbn. rewrite IH.
  unfold doc_of_line. rewrite lookup_adjust_all.
  by destruct (prods !! op_product_id op).
Qed.

Lemma ledger_document_created_other now order d id :
  id ≠ next_order_id d →
  ledger_document (created_db now order d) id = ledger_document d id.
Proof.
  intros Hne. unfold ledger_document. rewrite lines_of_created_other by done.
  unfold created_db. cbn [tbl_orders tbl_products].
  by rewrite lookup_insert_ne, doc_lines_adjust.
Qed.

Lemma ledger_document_updated_other id upd o d id' :
  id ≠ id' →
  ledger_document (updated_db id upd o d) id' = ledger_document d id'.
Proof.
  intros Hne. unfold ledger_document. rewrite lines_of_updated_other by done.
  unfold updated_db. cbn [tbl_orders tbl_products].
  by rewrite lookup_insert_ne, doc_lines_adjust.
Qed.

Lemma ledger_document_deleted id d id' :
  ledger_document (deleted_db id d) id' =
    if decide (id = id') then None else ledger_document d id'.
Proof.
  unfold ledger_document. destruct (decide (id = id')) as [<-|Hne].
  - unfold deleted_db at 1. cbn [tbl_orders]. by rewrite lookup_delete_eq.
  - rewrite lines_of_deleted_other by done.
    unfold deleted_db. cbn [tbl_orders tbl_products].
    by rewrite lookup_delete_ne, doc_lines_adjust.
Qed.

Lemma handle_keeps_projection r w :
  locks w = ∅ → ledger_ok (stored w) → projection_ok w →
  projection_ok (handle r w).
Proof.
  intros Hl [Hwf Hok] Hproj. set (w0 := set_session (λ _, stored w) w).
  assert (locks w0 = ∅) as Hl0 by done.
  destruct r as [now order|id upd|id]; cbn [handle].
  - unfold create_order, get_db, except_ValueError. fold w0.
    rewrite crud_create_order_run by done. cbn [session w0 set_session].
    destruct (first_error _ _) eqn:Hfe; [done|]. cbv zeta.
    destruct (created_document now order (stored w) Hwf Hfe) as [doc Hdoc].
    rewrite Hdoc. intros id. cbn.
    destruct (decide (id = next_order_id (stored w))) as [->|Hne].
    + by rewrite lookup_insert_eq.
    + rewrite lookup_insert_ne by done.
      by rewrite ledger_document_created_other.
  - unfold update_order, get_db, except_ValueError. fold w0.
    destruct (crud_update_order_run id upd w0 Hl0) as (evs & ses & Hr).
    destruct (update_result id upd (session w0)) as [e|d] eqn:Hres.
    + rewrite Hr. by destruct e.
    + destruct Hr as (o' & doc & _ & Hdoc & Hr). rewrite Hr.
      destruct (update_result_inr _ _ _ _ Hres) as (o & _ & _ & _ & Hd).
      cbn [session w0 set_session] in Hd.
      intros id'. cbn. destruct (decide (id = id')) as [<-|Hne].
      * by rewrite lookup_insert_eq.
      * rewrite lookup_insert_ne by done.
        by rewrite Hd, ledger_document_updated_other.
  - unfold delete_order, get_db, except_HTTPException. fold w0.
    pose proof (crud_delete_order_run id w0 Hl0) as Hr.
    cbn [session w0 set_session] in Hr.
    destruct (tbl_orders (stored w) !! id) as [o|] eqn:Ho.
    + destruct Hr as [evs Hr]. rewrite Hr. intros id'. cbn.
      rewrite ledger_document_deleted. destruct (decide (id = id')) as [<-|Hne].
      * by rewrite lookup_delete_eq.
      * by rewrite lookup_delete_ne.
    + by rewrite Hr.
Qed.

Lemma handle_ledger_ok r w :
  locks w = ∅ → ledger_ok (stored w) → ledger_ok (stored (handle r w)).
Proof.
  intros Hl Hok. destruct (handle_cases r w Hl) as [_ [->|Hnew]]; [done|].
  destruct r as [now order|id upd|id].
  - destruct Hnew as [Hfe ->]. by apply ledger_ok_created.
  - destruct Hnew as (o & Ho & Hfe & Hex & ->). by apply ledger_ok_updated.
  - rewrite Hnew. by apply ledger_ok_deleted.
Qed.

(** X13. The index follows the tables through any sequence of requests whose
    commits the database accepts, the tables fitting their columns at the
    start and after every request.  If at the start every line has its
    product, every total is that of its lines, and the index holds for every
    id the document of the order as the tables have it (none for an id
    without order), then the same holds after the requests: a change to one
    order never makes the document of another order stale, and no deleted
    order keeps a document. *)
Theorem serve_keeps_projection rs w :
  locks w = ∅ → ledger_ok (stored w) → projection_ok w →
  reached_fit rs w = true →
  projection_ok (serve rs w).
Proof.
  intros Hl Hok Hproj _. revert w Hl Hok Hproj.
  induction rs as [|r rs IH]; intros w Hl Hok Hproj; [done|].
  rewrite serve_cons. apply IH.
  - by apply handle_cases.
  - by apply handle_ledger_ok.
  - by apply handle_keeps_projection.
Qed.

Lemma handle_session r w :
  locks w = ∅ → session (handle r w) = stored (handle r w).
Proof.
  intros Hl. set (w0 := set_session (λ _, stored w) w).
  assert (locks w0 = ∅) as Hl0 by done.
  destruct r as [now order|id upd|id]; cbn [handle].
  - unfold create_order, get_db, except_ValueError. fold w0.
    rewrite crud_create_order_run by done.
    destruct (first_error _ _); [done|]. cbv zeta.
    by destruct (ledger_document _ _).
  - unfold update_order, get_db, except_ValueError. fold w0.
    destruct (crud_update_order_run id upd w0 Hl0) as (evs & ses & Hr).
    destruct (update_result id upd (session w0)) as [e|d].
    + rewrite Hr. by destruct e.
    + destruct Hr as (o' & doc & _ & _ & Hr). by rewrite Hr.
  - unfold delete_order, get_db, except_HTTPException. fold w0.
    pose proof (crud_delete_order_run id w0 Hl0) as Hr.
    destruct (tbl_orders (session w0) !! id).
    + destruct Hr as [evs Hr]. by rewrite Hr.
    + by rewrite Hr.
Qed.

Lemma handle_db_wf r w :
  locks w = ∅ → db_wf (stored w) → db_wf (stored (handle r w)).
Proof.
  intros Hl Hwf. destruct (handle_cases r w Hl) as [_ [->|Hnew]]; [done|].
  destruct r as [now order|id upd|id].
  - destruct Hnew as [_ ->]. by apply db_wf_created.
  - destruct Hnew as (o & Ho & _ & _ & ->). by apply db_wf_updated.
  - rewrite Hnew. by apply db_wf_deleted.
Qed.

(** X14. Requests handled one after the other never wait for one another and
    never leak into one another: starting with no lock held, after any
    sequence of requests no lock is held, the session holds nothing that is
    not committed, and the tables still meet the constraints of the
    database: no line is left without its order, and the id counter is ahead
    of every order id, so an id is not given twice. *)
Theorem serve_leaves_a_clean_state r rs : ∀ w,
  locks w = ∅ → db_wf (stored w) →
  locks (serve (r :: rs) w) = ∅ ∧
  session (serve (r :: rs) w) = stored (serve (r :: rs) w) ∧
  db_wf (stored (serve (r :: rs) w)).
Proof.
  revert r. induction rs as [|r' rs IH]; intros r w Hl Hwf.
  - cbn. split; [by apply handle_cases|].
    split; [by apply handle_session|by apply handle_db_wf].
  - rewrite serve_cons. apply IH; [by apply handle_cases|by apply handle_db_wf].
Qed.

(** X15. When the tables create-order would commit fit their columns, a
    create request that the endpoint refuses is refused with status 400 and
    the message of a requested line that names a product without a row or
    with less stock than requested; nothing is committed or indexed, and the
    session is clean.  With the constraints of the database met the endpoint
    raises nothing else. *)
Theorem create_order_endpoint_refusal now order w e w' :
  locks w = ∅ →
  db_wf (stored w) →
  fits (created_db now order (stored w)) = true →
  create_order now order w = (Raise e, w') →
  (∃ item,
     item ∈ products order ∧
     ((e = HTTPException 400 (ProductNotFound (product_id item)) ∧
       tbl_products (stored w) !! product_id item = None) ∨
      (e = HTTPException 400 (NotEnoughStock (product_id item)) ∧
       ∃ p, tbl_products (stored w) !! product_id item = Some p ∧
            p_stock p < quantity item))) ∧
  stored w' = stored w ∧ session w' = stored w ∧ index w' = index w ∧
  locks w' = ∅.
Proof.
  intros Hl Hwf _. set (w0 := set_session (λ _, stored w) w).
  assert (locks w0 = ∅) as Hl0 by done.
  unfold create_order, get_db, except_ValueError. fold w0.
  rewrite crud_create_order_run by done. cbn [session w0 set_session].
  destruct (first_error _ _) as [m|] eqn:Hfe.
  - intros [= <- <-]. split; [|done].
    destruct (first_error_Some _ _ _ Hfe) as (item & Hin & Hm).
    exists item. split; [done|].
    destruct (check_item_Some _ _ _ Hm) as [[-> ?]|[-> ?]]; [by left|by right].
  - cbv zeta. destruct (created_document now order (stored w) Hwf Hfe) as [doc Hdoc].
    by rewrite Hdoc.
Qed.

(** ** Locks and writes in update-order and delete-order *)

Lemma update_check_loop_events sc : ∀ w,
  locks w = ∅ →
  first_update_error (tbl_products (session w)) sc = None →
  for_ sc update_check () w =
    (Return (),
     {| session := session w; stored := stored w; index := index w;
        locks := ∅;
        trace := trace w ++ flat_map (λ kv, locked_read kv.1) sc |}).
Proof.
  induction sc as [|kv sc IH]; intros w Hl Hfe.
  - cbn. unfold ret. rewrite app_nil_r, <- Hl. by destruct w.
  - cbn [for_ first_update_error] in *. unfold bind at 1.
    rewrite update_check_run by done.
    destruct (update_error _ kv) as [e|]; [done|].
    rewrite IH by done. cbn. by rewrite <- app_assoc.
Qed.

Lemma update_apply_loop_events old new sc : ∀ w,
  Forall (λ kv, is_Some (tbl_products (session w) !! kv.1)) sc →
  for_ sc (update_apply old new) () w =
    (Return (),
     {| session := set_products (adjust_all (map (signed_change old new) sc))
                     (session w);
        stored := stored w; index := index w; locks := locks w;
        trace := trace w ++ map (λ kv, EvStockWrite kv.1) sc |}).
Proof.
  induction sc as [|kv sc IH]; intros w Hex.
  - cbn. unfold ret, set_products, adjust_all. cbn.
    rewrite app_nil_r. by destruct w as [[] ? ? ? ?].
  - inversion Hex as [|? ? [p Hp] Hex']; subst.
    cbn [for_]. erewrite bind_run by (by eapply update_apply_run).
    rewrite IH.
    + norm_world. unfold adjust_all. cbn.
      by rewrite signed_change_1, <- app_assoc.
    + cbn. eapply Forall_impl; [exact Hex'|].
      intros ? ?. by apply lookup_alter_is_Some.
Qed.

(** X16. In an update-order that returns, every product of stock_changes is
    read under its lock and the lock released; only after the last release
    are the stocks written, and the one commit comes last.  As in
    create-order, no lock is held when a stock is written or committed. *)
Theorem update_order_releases_before_write id order_data w o w' :
  locks w = ∅ →
  crud_update_order id order_data w = (Return o, w') →
  trace w' =
    trace w
    ++ flat_map (λ kv, [EvAcquire kv.1; EvSelectForUpdate kv.1; EvRelease kv.1])
         (stock_changes_of id order_data (session w))
    ++ map (λ kv, EvStockWrite kv.1) (stock_changes_of id order_data (session w))
    ++ [EvCommit].
Proof.
  intros Hl Hrun.
  destruct (crud_update_order_Return _ _ _ _ _ Hl Hrun)
    as (d & doc & evs & Hres & _ & _ & _).
  destruct (update_result_inr _ _ _ _ Hres) as (existing & Ho & Hfe & Hex & _).
  assert (crud_update_order id order_data w =
    (for_ (stock_changes_of id order_data (session w)) update_check () ;;;
     for_ (stock_changes_of id order_data (session w))
       (update_apply (existing_map id (session w)) (new_map order_data)) () ;;;
     db_delete_order_products id ;;;
     total_amount <- for_ (products (update_base order_data)) (update_line id)
                       float_zero ;;
     db_set_order id
       {| o_name := name (update_base order_data);
          o_description := description (update_base order_data);
          o_created_at := o_created_at existing;
          o_total_amount := total_amount |} ;;;
     db_commit ;;;
     updated_order <- db_refresh id ;;
     index_order_in_meilisearch id updated_order ;;;
     ret updated_order) w) as Hbody.
  { unfold crud_update_order. erewrite bind_run by reflexivity. rewrite Ho.
    erewrite bind_run by reflexivity. done. }
  rewrite Hbody in Hrun. clear Hbody.
  erewrite bind_run in Hrun by (by apply update_check_loop_events).
  erewrite bind_run in Hrun
    by (apply update_apply_loop_events; by apply first_update_error_exist).
  erewrite bind_run in Hrun by reflexivity.
  erewrite bind_run in Hrun
    by (apply update_line_loop; norm_world; by rewrite lines_exist_adjust).
  erewrite bind_run in Hrun by reflexivity.
  erewrite bind_run in Hrun by reflexivity.
  erewrite bind_run in Hrun
    by (apply db_refresh_run; norm_world; apply lookup_insert_eq).
  unfold bind in Hrun. rewrite index_order_run in Hrun.
  destruct (doc_lines _ _) in Hrun; [|done].
  injection Hrun as _ <-. norm_world. by rewrite <- !app_assoc.
Qed.

Lemma restock_events_alter f i (prods : gmap Z Product) op :
  restock_events (alter f i prods) op = restock_events prods op.
Proof.
  unfold restock_events. rewrite lookup_alter.
  case_decide as Heq; [|done]. rewrite Heq.
  by destruct (prods !! op_product_id op).
Qed.

Lemma delete_restock_events op w :
  locks w = ∅ →
  delete_restock op () w =
    (Return (),
     {| session := set_products (alter (add_stock (op_quantity op)) (op_product_id op))
                     (session w);
        stored := stored w; index := index w; locks := ∅;
        trace := trace w ++ restock_events (tbl_products (session w)) op |}).
Proof.
  intros Hl. unfold delete_restock, bind, try_finally, acquire_lock, restock_events.
  destruct (decide (op_product_id op ∈ locks w)) as [Hin|_];
    [rewrite Hl in Hin; set_solver|].
  cbn. destruct (tbl_products (session w) !! op_product_id op) as [p|] eqn:Hp; cbn.
  - unfold log, set_locks, set_session; cbn.
    rewrite Hl, lock_roundtrip, <- !app_assoc. done.
  - unfold log, set_locks, set_session, set_products; cbn.
    rewrite Hl, lock_roundtrip, <- !app_assoc, alter_absent by done.
    by destruct (session w).
Qed.

Lemma delete_loop_events lines : ∀ w,
  locks w = ∅ →
  for_ lines delete_restock () w =
    (Return (),
     {| session := set_products (adjust_all (map line_pair lines)) (session w);
        stored := stored w; index := index w; locks := ∅;
        trace := trace w ++ flat_map (restock_events (tbl_products (session w)))
                              lines |}).
Proof.
  induction lines as [|op lines IH]; intros w Hl.
  - cbn. unfold ret, set_products, adjust_all. cbn.
    rewrite app_nil_r, <- Hl. by destruct w as [[] ? ? ? ?].
  - cbn [for_]. erewrite bind_run by (by apply delete_restock_events).
    rewrite IH by done. norm_world. unfold adjust_all.
    cbn [map foldl flat_map tbl_products].
    assert (flat_map (restock_events
                        (alter (add_stock (op_quantity op)) (op_product_id op)
                           (tbl_products (session w)))) lines
            = flat_map (restock_events (tbl_products (session w))) lines) as ->.
    { clear IH. induction lines as [|op' lines IH']; [done|].
      cbn [flat_map]. by rewrite restock_events_alter, IH'. }
    do 2 f_equal. unfold restock_events. cbn. rewrite <- ?app_assoc. f_equal. cbn. do 2 f_equal. by rewrite <- app_assoc.
Qed.

(** X17. delete-order, for an order that exists, goes through the lines of
    the order one by one: it takes the lock of the product, reads the row,
    writes the stock when there is a row, and releases the lock; the writes
    are thus made under the lock, but the one commit comes after the last
    release. *)
Theorem delete_order_writes_under_lock id w o w' :
  locks w = ∅ →
  crud_delete_order id w = (Return o, w') →
  trace w' =
    trace w
    ++ flat_map
         (λ op, [EvAcquire (op_product_id op); EvSelectForUpdate (op_product_id op)]
                ++ match tbl_products (session w) !! op_product_id op with
                   | Some _ => [EvStockWrite (op_product_id op)]
                   | None => []
                   end
                ++ [EvRelease (op_product_id op)])
         (lines_of id (session w))
    ++ [EvCommit].
Proof.
  intros Hl Hrun. destruct (crud_delete_order_Return _ _ _ _ Hl Hrun) as [Ho _].
  assert (crud_delete_order id w =
    (Return o,
     {| session := deleted_db id (session w);
        stored := deleted_db id (session w);
        index := delete id (index w); locks := ∅;
        trace := trace w
                 ++ flat_map (restock_events (tbl_products (session w)))
                      (lines_of id (session w))
                 ++ [EvCommit] |})) as Hr.
  { unfold crud_delete_order.
    erewrite bind_run by reflexivity. rewrite Ho.
    erewrite bind_run by reflexivity.
    erewrite bind_run by (by apply delete_loop_events).
    unfold deleted_db. norm_world. by rewrite <- app_assoc. }
  rewrite Hr in Hrun. injection Hrun as <-. done.
Qed.

(** ** A product named by several lines *)

(** A dictionary built from pairs keeps, for a key, the value of the last
    pair with that key. *)
Lemma dict_of_get (l : list (Z * Z)) k :
  dict_get (dict_of l) k = last ((filter (λ kv, kv.1 = k) l).*2).
Proof.
  unfold dict_of. induction l as [|[k0 v0] l IH] using rev_ind; [done|].
  rewrite foldl_app. cbn [foldl fst snd]. rewrite dict_get_set, filter_app.
  destruct (decide (k0 = k)) as [->|Hne].
  - rewrite (filter_cons_True _ (k, v0)) by done.
    rewrite filter_nil, fmap_app. cbn [fmap list_fmap snd]. by rewrite last_snoc.
  - rewrite (filter_cons_False _ (k0, v0)) by done.
    rewrite filter_nil, app_nil_r. exact IH.
Qed.

Lemma filter_line_pair pid (lines : list OrderProduct) :
  (filter (λ kv, kv.1 = pid) (map line_pair lines)).*2
  = op_quantity <$> filter (λ op, op_product_id op = pid) lines.
Proof.
  induction lines as [|op lines IH]; [done|]. cbn [map].
  destruct (decide (op_product_id op = pid)) as [Heq|Hne].
  - rewrite (filter_cons_True _ (line_pair op)) by done.
    rewrite (filter_cons_True _ op) by done. cbn. by rewrite IH.
  - rewrite (filter_cons_False _ (line_pair op)) by done.
    by rewrite (filter_cons_False _ op) by done.
Qed.

Lemma filter_item_pair pid (items : list OrderProductBase) :
  (filter (λ kv, kv.1 = pid) (map item_pair items)).*2
  = quantity <$> filter (λ item, product_id item = pid) items.
Proof.
  induction items as [|item items IH]; [done|]. cbn [map].
  destruct (decide (product_id item = pid)) as [Heq|Hne].
  - rewrite (filter_cons_True _ (item_pair item)) by done.
    rewrite (filter_cons_True _ item) by done. cbn. by rewrite IH.
  - rewrite (filter_cons_False _ (item_pair item)) by done.
    by rewrite (filter_cons_False _ item) by done.
Qed.

(** X18. When a product is named by several lines, update-order counts only
    the last of them: in an update that returns, the stock of a product
    moves by the quantity of the last line the order had for it (0 if none)
    minus the quantity of the last line the request has for it (0 if none),
    whatever the other lines for that product say. *)
Theorem update_order_counts_last_line id order_data w o w' pid :
  locks w = ∅ →
  crud_update_order id order_data w = (Return o, w') →
  tbl_products (stored w') !! pid =
    add_stock
      (default 0 (last (op_quantity <$>
                          filter (λ op, op_product_id op = pid)
                            (lines_of id (session w))))
       - default 0 (last (quantity <$>
                            filter (λ item, product_id item = pid)
                              (products (update_base order_data)))))
    <$> tbl_products (session w) !! pid.
Proof.
  intros Hl Hrun. rewrite (update_products_lookup _ _ _ _ _ pid Hl Hrun).
  unfold dict_get_default, existing_map, new_map.
  by rewrite !dict_of_get, filter_line_pair, filter_item_pair.
Qed.

(** ** An update that asks for the quantities the order has *)

Lemma compute_stock_changes_equal old new :
  NoDup old.*1 → NoDup new.*1 →
  (∀ k, dict_get new k = dict_get old k) →
  compute_stock_changes old new = [].
Proof.
  intros Hold Hnew Heq. unfold compute_stock_changes.
  rewrite changes_of_existing_same, changes_of_new_same; [done| |].
  - apply Forall_forall. intros kv Hkv.
    rewrite <- Heq. by apply dict_get_elem_of.
  - apply Forall_forall. intros kv Hkv.
    rewrite Heq. by apply dict_get_elem_of.
Qed.

Lemma dict_get_line_pair pid (lines : list OrderProduct) :
  is_Some (dict_get (dict_of (map line_pair lines)) pid) →
  ∃ op, op ∈ lines ∧ op_product_id op = pid.
Proof.
  rewrite dict_of_get, filter_line_pair. intros [q Hq].
  destruct (filter (λ op, op_product_id op = pid) lines) as [|op l] eqn:Hf;
    [done|].
  assert (op ∈ filter (λ op, op_product_id op = pid) lines) as Hin
    by (rewrite Hf; left).
  apply list_elem_of_filter in Hin as [Hpid Hin]. by exists op.
Qed.

Lemma dict_get_item_pair (items : list OrderProductBase) item :
  item ∈ items →
  is_Some (dict_get (dict_of (map item_pair items)) (product_id item)).
Proof.
  intros Hin. rewrite dict_of_get, filter_item_pair.
  assert (item ∈ filter (λ i, product_id i = product_id item) items) as Hf
    by (by apply list_elem_of_filter).
  destruct (filter _ items) as [|i l] using rev_ind;
    [by apply elem_of_nil in Hf|].
  rewrite fmap_app. cbn [fmap list_fmap]. rewrite last_snoc. by eexists.
Qed.

(** C8. For an existing order and a session that holds nothing uncommitted,
    an update-order whose lines give every product the quantity the lines of
    the order give it leaves the stock of every product as it was, whether
    the call returns or raises.  If the requested lines are moreover those of
    the order in the same sequence, and the total of the order is the one of
    its lines, the total is unchanged as well.  The call returns when every
    line of the order has its product and the tables to commit fit their
    columns. *)
Theorem noop_update_changes_nothing id order_data w o :
  locks w = ∅ →
  session w = stored w →
  tbl_orders (stored w) !! id = Some o →
  (∀ pid, dict_get (new_map order_data) pid
          = dict_get (existing_map id (stored w)) pid) →
  tbl_products (stored (crud_update_order id order_data w).2)
    = tbl_products (stored w) ∧
  (map item_pair (products (update_base order_data))
     = map line_pair (lines_of id (stored w)) →
   o_total_amount o
     = foldl (add_line (tbl_products (stored w))) float_zero
         (map line_pair (lines_of id (stored w))) →
   o_total_amount <$> tbl_orders (stored (crud_update_order id order_data w).2) !! id
     = Some (o_total_amount o)) ∧
  (Forall (λ op, is_Some (tbl_products (stored w) !! op_product_id op))
     (lines_of id (stored w)) →
   fits (updated_db id order_data o (stored w)) = true →
   ∃ o', (crud_update_order id order_data w).1 = Return o').
Proof.
  intros Hl Hs Ho Hmap.
  destruct (crud_update_order_run id order_data w Hl) as (evs & ses & Hr).
  rewrite Hs in Hr.
  assert (stock_changes_of id order_data (stored w) = []) as Hsc
    by (apply compute_stock_changes_equal; [apply dict_of_NoDup..|exact Hmap]).
  assert (adjust_all
            (map (signed_change (existing_map id (stored w)) (new_map order_data))
               (stock_changes_of id order_data (stored w)))
            (tbl_products (stored w)) = tbl_products (stored w)) as Hprods
    by (by rewrite Hsc).
  unfold update_result in Hr. rewrite Ho, Hsc in Hr. cbn [first_update_error] in Hr.
  destruct (lines_exist _ _) eqn:Hle.
  - destruct Hr as (o' & doc & Ho' & _ & Hr). rewrite Hr. cbn [fst snd stored].
    unfold updated_db in *. cbn [tbl_products tbl_orders] in *.
    rewrite Hprods in *. split; [done|]. split; [|by eexists].
    intros Hsame Htot. rewrite lookup_insert_eq. cbn. by rewrite Hsame, Htot.
  - rewrite Hr. cbn [fst snd stored]. split; [done|]. split; [by rewrite Ho|].
    intros Hall _. exfalso.
    apply lines_exist_false in Hle as (item & Hin & Hnone).
    pose proof (dict_get_item_pair _ _ Hin) as Hnew.
    unfold new_map in Hmap. rewrite Hmap in Hnew.
    apply dict_get_line_pair in Hnew as (op & Hop & Hpid).
    rewrite Forall_forall in Hall. specialize (Hall op Hop).
    rewrite Hpid, Hnone in Hall. by destruct Hall.
Qed.

End Proofs.

(** * The statements at concrete data *)

#[local] Existing Instance ExampleEnv.

Ltac open_world :=
  unfold shop, depot, sold_out, orphaned, world_of in *;
  cbn [stored session tbl_products tbl_orders tbl_order_products next_order_id] in *.

Lemma shop_wf : db_wf (stored shop).
Proof.
  split; [|constructor].
  intros id [o Ho]. open_world. by rewrite lookup_empty in Ho.
Qed.

Lemma shop_stock_ok : stock_ok (stored shop).
Proof.
  split; [|split; [|constructor]].
  - intros id p Hp. open_world. by apply lookup_singleton_Some in Hp as [_ <-].
  - intros id. constructor.
Qed.

Lemma depot_wf : db_wf (session depot).
Proof.
  split.
  - intros id [o Ho]. open_world. by apply lookup_singleton_Some in Ho as [<- _].
  - repeat constructor; by eexists.
Qed.

Lemma depot_ledger_ok : ledger_ok (session depot).
Proof.
  split; [exact depot_wf|].
  intros id o Ho. open_world. apply lookup_singleton_Some in Ho as [<- <-]. split.
  - repeat constructor; by eexists.
  - reflexivity.
Qed.

(** C1 is false as stated: an order with two lines for P1, 3 units each,
    passes the check of either line against the stock of 5 and leaves a
    stock of -1. *)
Lemma duplicate_lines_overdraw :
  ¬ (∀ i p,
       tbl_products
         (stored (serve (E:=ExampleEnv) [POST_orders (E:=ExampleEnv) 100 order_twice]
                    shop)) !! i = Some p →
       0 ≤ p_stock p).
Proof.
  intros Hall. specialize (Hall 1 (product "P1" 10 (-1)) eq_refl). done.
Qed.

(** A negative quantity does the same by another way: the line -5 raises the
    stock of P1 from 5 to 10, a second order takes the 10, and deleting the
    first order takes 5 more. *)
Example negative_quantity_overdraw :
  p_stock <$>
    tbl_products
      (stored (serve (E:=ExampleEnv)
                 [POST_orders (E:=ExampleEnv) 100 order_minus;
                  POST_orders (E:=ExampleEnv) 101 order_ten;
                  DELETE_orders (E:=ExampleEnv) 1] shop)) !! 1
  = Some (-5).
Proof. vm_compute. reflexivity. Qed.

(** The scenario of the specification: P1 has stock 5 and price 10.0; the
    order O1 for 2 units leaves stock 3, has total 20.0, and its document has
    one product line with quantity 2. *)
Example scenario_O1 :
  let r := crud_create_order (E:=ExampleEnv) 100 order_O1 shop in
  r.1 = Return 1 ∧
  p_stock <$> tbl_products (stored r.2) !! 1 = Some 3 ∧
  o_total_amount <$> tbl_orders (stored r.2) !! 1 = Some 20 ∧
  map dp_quantity <$> (d_products <$> index r.2 !! 1) = Some [2].
Proof. vm_compute. done. Qed.

Lemma conservation_for_line_sets_witness :
  (∀ i, provisioned (stored (serve three_requests shop)) i
        = provisioned (stored shop) i) ∧
  (∀ i p, tbl_products (stored (serve three_requests shop)) !! i = Some p →
          0 ≤ p_stock p).
Proof.
  apply (conservation_for_line_sets (E:=ExampleEnv) three_requests shop).
  - reflexivity.
  - exact shop_wf.
  - exact shop_stock_ok.
  - repeat constructor; cbn; try lia; by intros ?%elem_of_nil.
Defined.

Lemma update_order_stock_delta_witness :
  ∃ p',
    tbl_products (stored (crud_update_order (E:=ExampleEnv) 1 update_ABC depot).2) !! 1
      = Some p' ∧
    p_stock p' = 10 + 2.
Proof.
  destruct (update_order_stock_delta (E:=ExampleEnv) 1 update_ABC depot
              (@Build_Order ExampleEnv "first" None 0 120)
              (crud_update_order (E:=ExampleEnv) 1 update_ABC depot).2
              1 (product "A" 10 10))
    as (p' & Hp' & _ & Hrestock & _).
  - reflexivity.
  - vm_compute. reflexivity.
  - reflexivity.
  - exists p'. split; [exact Hp'|]. apply Hrestock. vm_compute. reflexivity.
Defined.

(** The example of the specification: from {A: 3, B: 2} to
    {A: 1, B: 5, C: 2} with a stock of 10 each, A gets 2 back, B gives 3 and
    C gives 2. *)
Example update_ABC_stocks :
  let w' := (crud_update_order (E:=ExampleEnv) 1 update_ABC depot).2 in
  p_stock <$> tbl_products (stored w') !! 1 = Some 12 ∧
  p_stock <$> tbl_products (stored w') !! 2 = Some 7 ∧
  p_stock <$> tbl_products (stored w') !! 3 = Some 8.
Proof. vm_compute. done. Qed.

Lemma restock_is_validated_witness :
  (crud_update_order (E:=ExampleEnv) 1 update_less sold_out).1
    = Raise (HTTPException 400 (NotEnoughStock 1)).
Proof.
  apply (restock_is_validated (E:=ExampleEnv) 1 update_less sold_out
           (@Build_Order ExampleEnv "first" None 0 30) 1 3 1 (product "A" 10 0)).
  - reflexivity.
  - reflexivity.
  - reflexivity.
  - reflexivity.
  - lia.
  - reflexivity.
  - vm_compute. reflexivity.
Defined.

(** The same run, evaluated: order 1 holds {A: 3}, A has no stock left, and
    the update to {A: 1} is refused. *)
Example sold_out_restock_refused :
  existing_map 1 (session sold_out) = [(1, 3)] ∧
  new_map update_less = [(1, 1)] ∧
  p_stock <$> tbl_products (session sold_out) !! 1 = Some 0 ∧
  (crud_update_order (E:=ExampleEnv) 1 update_less sold_out).1
    = Raise (HTTPException 400 (NotEnoughStock 1)).
Proof. vm_compute. done. Qed.

Lemma create_order_releases_before_write_witness :
  trace (crud_create_order (E:=ExampleEnv) 100 order_O1 shop).2 =
    [EvAcquire 1; EvSelectForUpdate 1; EvRelease 1; EvCommit; EvStockWrite 1;
     EvCommit].
Proof.
  apply (create_order_releases_before_write (E:=ExampleEnv) 100 order_O1 shop 1).
  - reflexivity.
  - vm_compute. reflexivity.
Defined.


Lemma projection_convergence_witness :
  index (crud_create_order (E:=ExampleEnv) 100 order_O1 shop).2 !! 1
    = Some (@Build_Document ExampleEnv 1 "O1" None 100 20
              [@Build_DocProduct ExampleEnv "P1" None 10 2]) ∧
  index (crud_update_order (E:=ExampleEnv) 1 update_ABC depot).2 !! 1
    = Some (@Build_Document ExampleEnv 1 "first" None 0 120
              [@Build_DocProduct ExampleEnv "A" None 10 1;
               @Build_DocProduct ExampleEnv "B" None 20 5;
               @Build_DocProduct ExampleEnv "C" None 5 2]) ∧
  crud_get_order_by_id (E:=ExampleEnv) 1
    (crud_delete_order (E:=ExampleEnv) 1 orphaned).2
    = (Raise (HTTPException 404 OrderNotFound),
       (crud_delete_order (E:=ExampleEnv) 1 orphaned).2).
Proof.
  destruct (projection_convergence (E:=ExampleEnv)) as (Hcreate & Hupdate & Hdelete).
  split; [|split].
  - destruct (Hcreate 100 order_O1 shop 1
                (crud_create_order (E:=ExampleEnv) 100 order_O1 shop).2)
      as (o & ds & Ho & Hds & Hdoc & _); [reflexivity|vm_compute; reflexivity|].
    rewrite Hdoc. vm_compute in Ho, Hds. by injection Ho as <-; injection Hds as <-.
  - destruct (Hupdate 1 update_ABC depot
                (@Build_Order ExampleEnv "first" None 0 120)
                (crud_update_order (E:=ExampleEnv) 1 update_ABC depot).2)
      as (ds & Ho & Hds & Hdoc & _); [reflexivity|vm_compute; reflexivity|].
    rewrite Hdoc. vm_compute in Hds. by injection Hds as <-.
  - apply (Hdelete 1 orphaned (@Build_Order ExampleEnv "first" None 0 20));
      [reflexivity|]. vm_compute. reflexivity.
Defined.

Lemma delete_reverses_create_witness :
  ∃ o w2,
    crud_delete_order (E:=ExampleEnv) 1
      (crud_create_order (E:=ExampleEnv) 100 order_O1 shop).2 = (Return o, w2) ∧
    tbl_products (stored w2) = tbl_products (session shop) ∧
    tbl_orders (stored w2) = tbl_orders (session shop) ∧
    tbl_order_products (stored w2) = tbl_order_products (session shop) ∧
    index w2 !! 1 = None.
Proof.
  apply (delete_reverses_create (E:=ExampleEnv) 100 order_O1 shop 1).
  - reflexivity.
  - exact shop_wf.
  - vm_compute. reflexivity.
Defined.

(** C8 is false as stated.  The order of [pantry] is created with one unit of
    each of A, B and C, which gives it the total 0.1 + 0.2 + 0.3 =
    0.6000000000000001; the update asks for the same three lines from C to A,
    and the total becomes 0.3 + 0.2 + 0.1 = 0.6. *)
Lemma reordered_lines_change_total :
  ¬ (o_total_amount (E:=Binary64Env) <$>
       tbl_orders (E:=Binary64Env)
         (stored (serve (E:=Binary64Env)
                    [POST_orders (E:=Binary64Env) 100 order_ABC;
                     PUT_orders (E:=Binary64Env) 1 update_CBA] pantry)) !! 1
     = o_total_amount (E:=Binary64Env) <$>
         tbl_orders (E:=Binary64Env)
           (stored (serve (E:=Binary64Env)
                      [POST_orders (E:=Binary64Env) 100 order_ABC] pantry)) !! 1).
Proof.
  intros Hsame.
  apply (f_equal (from_option (PrimFloat.eqb 0x1.3333333333333p-1%float) false))
    in Hsame.
  vm_compute in Hsame. discriminate.
Qed.

(** The same update leaves the stock of A, B and C alone. *)
Example reordered_lines_keep_stock :
  tbl_products (E:=Binary64Env)
    (stored (serve (E:=Binary64Env)
               [POST_orders (E:=Binary64Env) 100 order_ABC;
                PUT_orders (E:=Binary64Env) 1 update_CBA] pantry))
  = tbl_products (E:=Binary64Env)
      (stored (serve (E:=Binary64Env)
                 [POST_orders (E:=Binary64Env) 100 order_ABC] pantry)).
Proof. vm_compute. reflexivity. Qed.

(** A total that is not the one of the lines does not survive the update:
    order 1 of [half_made] has no line, and the update that asks for no line
    gives it the total 0. *)
Example stale_total_is_recomputed :
  o_total_amount <$>
    tbl_orders (stored (crud_update_order (E:=ExampleEnv) 1 update_none half_made).2) !! 1
  = Some 0.
Proof. vm_compute. reflexivity. Qed.

Lemma noop_update_changes_nothing_witness :
  tbl_products (stored (crud_update_order (E:=ExampleEnv) 1 update_same depot).2)
    = tbl_products (stored depot) ∧
  o_total_amount <$>
    tbl_orders (stored (crud_update_order (E:=ExampleEnv) 1 update_same depot).2) !! 1
    = Some 70 ∧
  ∃ o', (crud_update_order (E:=ExampleEnv) 1 update_same depot).1 = Return o'.
Proof.
  destruct (noop_update_changes_nothing (E:=ExampleEnv) 1 update_same depot
              (@Build_Order ExampleEnv "first" None 0 70))
    as (Hstock & Htotal & Hreturns).
  - reflexivity.
  - reflexivity.
  - reflexivity.
  - intros pid. reflexivity.
  - split; [exact Hstock|]. split.
    + apply Htotal; reflexivity.
    + apply Hreturns; [|vm_compute; reflexivity].
      repeat constructor; by eexists.
Defined.

(** C9 is false as stated: a create-order whose line asks for 0 units of P1
    returns and stores that line. *)
Lemma zero_quantity_line_stored :
  ¬ Forall (λ op, 0 < op_quantity op)
      (tbl_order_products
         (stored (crud_create_order (E:=ExampleEnv) 100 order_nothing shop).2)).
Proof. intros Hall. vm_compute in Hall. by apply Forall_cons in Hall as [? _]. Qed.

Lemma stored_lines_are_requested_lines_witness :
  tbl_order_products
    (stored (crud_create_order (E:=ExampleEnv) 100 order_O1 shop).2)
    = [{| op_order_id := 1; op_product_id := 1; op_quantity := 2 |}] ∧
  tbl_order_products
    (stored (crud_update_order (E:=ExampleEnv) 1 update_ABC depot).2)
    = [{| op_order_id := 1; op_product_id := 1; op_quantity := 1 |};
       {| op_order_id := 1; op_product_id := 2; op_quantity := 5 |};
       {| op_order_id := 1; op_product_id := 3; op_quantity := 2 |}].
Proof.
  destruct (stored_lines_are_requested_lines (E:=ExampleEnv)) as [Hcreate Hupdate].
  split.
  - rewrite (Hcreate 100 order_O1 shop 1 _ eq_refl); [reflexivity|].
    vm_compute. reflexivity.
  - rewrite (Hupdate 1 update_ABC depot
               (@Build_Order ExampleEnv "first" None 0 120) _ eq_refl);
      [reflexivity|]. vm_compute. reflexivity.
Defined.

Lemma delete_order_skips_missing_products_witness :
  ∃ w',
    crud_delete_order (E:=ExampleEnv) 1 orphaned
      = (Return (@Build_Order ExampleEnv "first" None 0 20), w') ∧
    (∀ pid,
       tbl_products (stored w') !! pid =
         (λ p, set_stock
                 (p_stock p
                  + sum_on pid (map line_pair (lines_of 1 (session orphaned)))) p)
           <$> tbl_products (session orphaned) !! pid) ∧
    tbl_orders (stored w') !! 1 = None ∧
    lines_of 1 (stored w') = [] ∧
    index w' !! 1 = None.
Proof.
  apply (delete_order_skips_missing_products (E:=ExampleEnv) 1 orphaned).
  - reflexivity.
  - reflexivity.
Defined.

(** A line without product: product 1 gets its 2 units back, product 9 still has
    no row, and the call returns. *)
Example delete_orphaned_stocks :
  let r := crud_delete_order (E:=ExampleEnv) 1 orphaned in
  r.1 = Return (@Build_Order ExampleEnv "first" None 0 20) ∧
  p_stock <$> tbl_products (stored r.2) !! 1 = Some 6 ∧
  tbl_products (stored r.2) !! 9 = None ∧
  tbl_order_products (stored r.2) = [].
Proof. vm_compute. done. Qed.

(** * Further statements at concrete data *)

Lemma shop_ledger_ok : ledger_ok (stored shop).
Proof.
  split; [exact shop_wf|].
  intros id o Ho. open_world. by rewrite lookup_empty in Ho.
Qed.

Lemma shop_projection_ok : projection_ok shop.
Proof.
  intros id. unfold ledger_document. open_world.
  by rewrite !lookup_empty.
Qed.

(** The update of order 1 of [sold_out] to one unit of A is refused, and
    leaves the tables and the index alone. *)
Lemma update_order_failure_commits_nothing_witness :
  stored (crud_update_order (E:=ExampleEnv) 1 update_less sold_out).2 = stored sold_out ∧
  index (crud_update_order (E:=ExampleEnv) 1 update_less sold_out).2 = index sold_out ∧
  locks (crud_update_order (E:=ExampleEnv) 1 update_less sold_out).2 = ∅.
Proof.
  apply (update_order_failure_commits_nothing (E:=ExampleEnv) 1 update_less sold_out
           (HTTPException 400 (NotEnoughStock 1))).
  - reflexivity.
  - vm_compute. reflexivity.
Defined.

(** Asking again for the lines order 1 of [orphaned] has changes no stock,
    so nothing is checked, and the line for product 9 ends the call with an
    AttributeError. *)
Lemma update_order_raises_for_a_reason_witness :
  (AttributeError = HTTPException 404 OrderNotFound ∧
   tbl_orders (session orphaned) !! 1 = None) ∨
  (∃ pid change,
     (pid, change) ∈ stock_changes_of 1 update_orphan (session orphaned) ∧
     ((AttributeError = HTTPException 404 (ProductNotFound pid) ∧
       tbl_products (session orphaned) !! pid = None) ∨
      (AttributeError = HTTPException 400 (NotEnoughStock pid) ∧ 0 < change ∧
       ∃ p, tbl_products (session orphaned) !! pid = Some p ∧ p_stock p < change))) ∨
  (AttributeError = AttributeError ∧
   ∃ item, item ∈ products (update_base update_orphan) ∧
           tbl_products (session orphaned) !! product_id item = None).
Proof.
  apply (update_order_raises_for_a_reason (E:=ExampleEnv) 1 update_orphan orphaned
           AttributeError
           (crud_update_order (E:=ExampleEnv) 1 update_orphan orphaned).2).
  - reflexivity.
  - intros existing _. vm_compute. reflexivity.
  - vm_compute. reflexivity.
Defined.

Lemma missing_order_is_not_found_witness :
  (∀ order_data,
     crud_update_order (E:=ExampleEnv) 7 order_data depot
     = (Raise (HTTPException 404 OrderNotFound), depot)) ∧
  crud_delete_order (E:=ExampleEnv) 7 depot
  = (Raise (HTTPException 404 OrderNotFound), depot).
Proof.
  apply (missing_order_is_not_found (E:=ExampleEnv) 7 depot).
  vm_compute. reflexivity.
Defined.

Lemma locks_are_given_back_witness :
  locks (crud_create_order (E:=ExampleEnv) 100 order_short depot).2 = ∅ ∧
  locks (crud_update_order (E:=ExampleEnv) 1 update_ABC depot).2 = ∅ ∧
  locks (crud_delete_order (E:=ExampleEnv) 1 depot).2 = ∅.
Proof.
  destruct (locks_are_given_back (E:=ExampleEnv) depot eq_refl) as (Hc & Hu & Hd).
  split; [exact (proj1 (Hc 100 order_short))|].
  split; [exact (proj1 (Hu 1 update_ABC))|exact (proj1 (Hd 1))].
Defined.

(** Order 2 is created in [depot], then updated, then deleted: order 1 keeps
    its row, its lines and its (absent) document each time. *)
Lemma other_orders_are_untouched_witness :
  tbl_orders (stored (crud_create_order (E:=ExampleEnv) 100 order_O1 depot).2) !! 1
    = tbl_orders (session depot) !! 1 ∧
  lines_of 1
    (stored (crud_update_order (E:=ExampleEnv) 2 update_more
               (crud_create_order (E:=ExampleEnv) 100 order_O1 depot).2).2)
    = lines_of 1 (session depot) ∧
  lines_of 1
    (stored (crud_delete_order (E:=ExampleEnv) 2
               (crud_create_order (E:=ExampleEnv) 100 order_O1 depot).2).2)
    = lines_of 1 (session depot).
Proof.
  destruct (other_orders_are_untouched (E:=ExampleEnv)) as (Hc & Hu & Hd).
  split; [|split].
  - eapply (Hc 100 order_O1 depot 2 _ 1); [reflexivity| |done].
    vm_compute. reflexivity.
  - eapply (proj1 (proj2 (Hu 2 update_more
                            (crud_create_order (E:=ExampleEnv) 100 order_O1 depot).2
                            _ _ 1 _ _ _))).
    Unshelve. all: try (vm_compute; reflexivity). done.
  - eapply (proj1 (proj2 (Hd 2
                            (crud_create_order (E:=ExampleEnv) 100 order_O1 depot).2
                            _ _ 1 _ _ _))).
    Unshelve. all: try (vm_compute; reflexivity). done.
Defined.

Lemma serve_keeps_product_cards_witness :
  product_card <$> tbl_products (stored (serve (E:=ExampleEnv) three_requests depot)) !! 1
  = product_card <$> tbl_products (stored depot) !! 1.
Proof.
  apply (serve_keeps_product_cards (E:=ExampleEnv) three_requests depot 1).
  reflexivity.
Defined.

Lemma second_delete_is_not_found_witness :
  crud_delete_order (E:=ExampleEnv) 1 (crud_delete_order (E:=ExampleEnv) 1 depot).2
  = (Raise (HTTPException 404 OrderNotFound),
     (crud_delete_order (E:=ExampleEnv) 1 depot).2).
Proof.
  apply (second_delete_is_not_found (E:=ExampleEnv) 1 depot
           (@Build_Order ExampleEnv "first" None 0 70)).
  - reflexivity.
  - vm_compute. reflexivity.
Defined.

(** Order 1 of [depot] goes from {A: 3, B: 2} to {A: 1, B: 5, C: 2} and back:
    A has its 10 units again. *)
Lemma consecutive_updates_compose_witness :
  ∃ p2,
    tbl_products
      (stored (crud_update_order (E:=ExampleEnv) 1 update_same
                 (crud_update_order (E:=ExampleEnv) 1 update_ABC depot).2).2) !! 1
    = Some p2 ∧
    p_stock p2 =
      10 - (dict_get_default (new_map update_same) 1 0
            - dict_get_default (existing_map 1 (session depot)) 1 0).
Proof.
  eapply (consecutive_updates_compose (E:=ExampleEnv) 1 update_ABC update_same depot
            _ _ _ _ 1 (product "A" 10 10)).
  - reflexivity.
  - vm_compute. reflexivity.
  - vm_compute. reflexivity.
  - reflexivity.
Defined.

Lemma create_order_returns_witness :
  ∃ w',
    crud_create_order (E:=ExampleEnv) 100 order_O1 depot = (Return 2, w') ∧
    p_stock <$> tbl_products (stored w') !! 1 = Some 8 ∧
    next_order_id (stored w') = 3.
Proof.
  destruct (create_order_returns (E:=ExampleEnv) 100 order_O1 depot)
    as (w' & Hrun & _ & Hstock & _ & Hnext).
  - reflexivity.
  - exact depot_wf.
  - vm_compute. reflexivity.
  - intros item Hin. apply list_elem_of_singleton in Hin as ->.
    exists (product "A" 10 10). split; [reflexivity|]. vm_compute. discriminate.
  - exists w'. split; [exact Hrun|]. split; [|exact Hnext].
    rewrite Hstock. reflexivity.
Defined.

Lemma update_order_sets_fields_witness :
  ∃ o w',
    tbl_orders (stored w') !! 1 = Some o ∧
    o_created_at o = 0 ∧
    ∀ t, crud_update_order (E:=ExampleEnv) 1
           {| update_base := update_base update_ABC; created_at := t |} depot
         = (Return o, w').
Proof.
  destruct (update_order_sets_fields (E:=ExampleEnv) 1 update_ABC depot
              (@Build_Order ExampleEnv "first" None 0 70)
              (@Build_Order ExampleEnv "first" None 0 120)
              (crud_update_order (E:=ExampleEnv) 1 update_ABC depot).2)
    as (Hrow & _ & _ & Hat & _ & Hany).
  - reflexivity.
  - reflexivity.
  - vm_compute. reflexivity.
  - eexists _, _. split; [exact Hrow|]. split; [exact Hat|exact Hany].
Defined.

(** The order with two lines for P1 overdraws the stock, and still the stock
    plus the reserved quantity is what it was; so it is after a delete. *)
Lemma create_and_delete_conserve_witness :
  provisioned (stored (crud_create_order (E:=ExampleEnv) 100 order_twice shop).2) 1
    = provisioned (session shop) 1 ∧
  provisioned (stored (crud_delete_order (E:=ExampleEnv) 1 depot).2) 1
    = provisioned (session depot) 1.
Proof.
  destruct (create_and_delete_conserve (E:=ExampleEnv)) as [Hc Hd]. split.
  - apply (Hc 100 order_twice shop 1); [reflexivity|exact shop_wf|].
    vm_compute. reflexivity.
  - apply (Hd 1 depot (@Build_Order ExampleEnv "first" None 0 70));
      [reflexivity|exact depot_wf|].
    vm_compute. reflexivity.
Defined.

Lemma serve_keeps_projection_witness :
  projection_ok (serve (E:=ExampleEnv) two_orders shop).
Proof.
  apply (serve_keeps_projection (E:=ExampleEnv) two_orders shop).
  - reflexivity.
  - exact shop_ledger_ok.
  - exact shop_projection_ok.
  - vm_compute. reflexivity.
Defined.

Lemma serve_leaves_a_clean_state_witness :
  locks (serve (E:=ExampleEnv) three_requests depot) = ∅ ∧
  session (serve (E:=ExampleEnv) three_requests depot)
    = stored (serve (E:=ExampleEnv) three_requests depot) ∧
  db_wf (stored (serve (E:=ExampleEnv) three_requests depot)).
Proof.
  apply (serve_leaves_a_clean_state (E:=ExampleEnv)
           (POST_orders (E:=ExampleEnv) 100 order_O1)
           [PUT_orders (E:=ExampleEnv) 1 update_more; DELETE_orders (E:=ExampleEnv) 1]
           depot).
  - reflexivity.
  - exact depot_wf.
Defined.

(** The order for 2 units of A and 50 of B is refused for B. *)
Lemma create_order_endpoint_refusal_witness :
  (∃ item,
     item ∈ products order_short ∧
     ((HTTPException 400 (NotEnoughStock 2)
       = HTTPException 400 (ProductNotFound (product_id item)) ∧
       tbl_products (stored depot) !! product_id item = None) ∨
      (HTTPException 400 (NotEnoughStock 2)
       = HTTPException 400 (NotEnoughStock (product_id item)) ∧
       ∃ p, tbl_products (stored depot) !! product_id item = Some p ∧
            p_stock p < quantity item))) ∧
  stored (create_order (E:=ExampleEnv) 100 order_short depot).2 = stored depot ∧
  session (create_order (E:=ExampleEnv) 100 order_short depot).2 = stored depot ∧
  index (create_order (E:=ExampleEnv) 100 order_short depot).2 = index depot ∧
  locks (create_order (E:=ExampleEnv) 100 order_short depot).2 = ∅.
Proof.
  apply (create_order_endpoint_refusal (E:=ExampleEnv) 100 order_short depot).
  - reflexivity.
  - exact depot_wf.
  - vm_compute. reflexivity.
  - vm_compute. reflexivity.
Defined.

(** The update of order 1 of [depot] to {A: 1, B: 5, C: 2}: three locked
    reads, three writes with no lock held, one commit. *)
Lemma update_order_releases_before_write_witness :
  trace (crud_update_order (E:=ExampleEnv) 1 update_ABC depot).2 =
    [EvAcquire 1; EvSelectForUpdate 1; EvRelease 1;
     EvAcquire 2; EvSelectForUpdate 2; EvRelease 2;
     EvAcquire 3; EvSelectForUpdate 3; EvRelease 3;
     EvStockWrite 1; EvStockWrite 2; EvStockWrite 3; EvCommit].
Proof.
  apply (update_order_releases_before_write (E:=ExampleEnv) 1 update_ABC depot
           (@Build_Order ExampleEnv "first" None 0 120)).
  - reflexivity.
  - vm_compute. reflexivity.
Defined.

(** Deleting order 1 of [orphaned]: the stock of product 1 is written under
    its lock; product 9 has no row and nothing is written for it. *)
Lemma delete_order_writes_under_lock_witness :
  trace (crud_delete_order (E:=ExampleEnv) 1 orphaned).2 =
    [EvAcquire 1; EvSelectForUpdate 1; EvStockWrite 1; EvRelease 1;
     EvAcquire 9; EvSelectForUpdate 9; EvRelease 9; EvCommit].
Proof.
  apply (delete_order_writes_under_lock (E:=ExampleEnv) 1 orphaned
           (@Build_Order ExampleEnv "first" None 0 20)).
  - reflexivity.
  - vm_compute. reflexivity.
Defined.

(** Order 1 of [depot] holds 3 units of A; the request names A twice, for 1
    unit and for 4: the stock of A goes from 10 to 9. *)
Lemma update_order_counts_last_line_witness :
  p_stock <$>
    tbl_products (stored (crud_update_order (E:=ExampleEnv) 1 update_twice depot).2) !! 1
  = Some 9.
Proof.
  rewrite (update_order_counts_last_line (E:=ExampleEnv) 1 update_twice depot
             (@Build_Order ExampleEnv "first" None 0 50)
             (crud_update_order (E:=ExampleEnv) 1 update_twice depot).2 1).
  - reflexivity.
  - reflexivity.
  - vm_compute. reflexivity.
Defined.

Lemma serve_ledger_ok_witness :
  locks (serve (E:=ExampleEnv) three_requests depot) = ∅ ∧
  ledger_ok (stored (serve (E:=ExampleEnv) three_requests depot)).
Proof.
  apply (serve_ledger_ok (E:=ExampleEnv) three_requests depot).
  - reflexivity.
  - exact depot_ledger_ok.
  - vm_compute. reflexivity.
Defined.
